(** * Second-factor routes of the webmail account router

    A shallow embedding of [routes/account.js]: the remember-device token
    minted by [generate2faRemeberToken], and the request handlers of the
    second-factor routes ([/verify-totp], [/disable-2fa], [/check-totp],
    [/start-u2f], [/check-u2f], [/enable-u2f], [/setup-u2f], [/disable-u2f],
    [/enable-u2f/verify]).

    Conventions.
    - A JavaScript string is a [string]; each [ascii] stands for one UTF-16
      code unit below 256, so [String.length] is the JavaScript [length].
      Strings with larger code units are outside the model.
    - A byte buffer is a [list byte].
    - A 32-bit word is a [Z] in [0, 2^32), wrap-around written out. *)

From Stdlib Require Import ZArith NArith Lia List Bool Ascii String.
From Stdlib.Strings Require Import Byte.
From stdpp Require Import base option gmap strings list fin_maps.

Import ListNotations.
Local Open Scope string_scope.
Local Open Scope Z_scope.
Local Open Scope list_scope.

(** ** Byte buffers and their hexadecimal rendering *)

Module Hex.

(** The digit characters used by [Number.prototype.toString(16)] and by
    [Buffer.prototype.toString('hex')]: lowercase. *)
Definition hex_digit (d : N) : ascii :=
  match d with
  | 0%N => "0" | 1%N => "1" | 2%N => "2" | 3%N => "3"
  | 4%N => "4" | 5%N => "5" | 6%N => "6" | 7%N => "7"
  | 8%N => "8" | 9%N => "9" | 10%N => "a" | 11%N => "b"
  | 12%N => "c" | 13%N => "d" | 14%N => "e" | _ => "f"
  end%char.

(** Value of a hexadecimal digit character; both cases are read, as
    [parseInt(s, 16)] and [Buffer.from(s, 'hex')] do. *)
Definition digit_value (c : ascii) : option N :=
  let n := N_of_ascii c in
  if ((48 <=? n) && (n <=? 57))%N then Some (n - 48)%N
  else if ((97 <=? n) && (n <=? 102))%N then Some (n - 87)%N
  else if ((65 <=? n) && (n <=? 70))%N then Some (n - 55)%N
  else None.

(** A lowercase hexadecimal character: [0-9a-f]. *)
Definition is_lower_hex (c : ascii) : bool :=
  let n := N_of_ascii c in
  (((48 <=? n) && (n <=? 57)) || ((97 <=? n) && (n <=? 102)))%N.

Fixpoint all_chars (p : ascii -> bool) (s : string) : bool :=
  match s with
  | EmptyString => true
  | String c s' => p c && all_chars p s'
  end.

(** [n.toString(16)] for a non-negative integer [n]: most significant
    digit first, no leading zero, ["0"] for zero. *)
Fixpoint to_hex_fuel (fuel : nat) (n : N) : string :=
  match fuel with
  | O => EmptyString
  | S f =>
      if (n <? 16)%N then String (hex_digit n) EmptyString
      else to_hex_fuel f (n / 16)%N +:+ String (hex_digit (n mod 16)%N) EmptyString
  end.

Definition toString16 (n : N) : string :=
  to_hex_fuel (S (N.to_nat (N.log2 n))) n.

(** Reading a hexadecimal numeral, [None] on an empty string or on any
    character that is not a hexadecimal digit. *)
Fixpoint of_hex_acc (acc : N) (s : string) : option N :=
  match s with
  | EmptyString => Some acc
  | String c s' =>
      match digit_value c with
      | Some d => of_hex_acc (acc * 16 + d)%N s'
      | None => None
      end
  end.

Definition of_hex (s : string) : option N :=
  match s with
  | EmptyString => None
  | _ => of_hex_acc 0%N s
  end.

(** [buf.toString('hex')]: two lowercase digits per byte. *)
Fixpoint hex_of_bytes (bs : list byte) : string :=
  match bs with
  | [] => EmptyString
  | b :: bs' =>
      let n := Byte.to_N b in
      String (hex_digit (n / 16)%N) (String (hex_digit (n mod 16)%N) (hex_of_bytes bs'))
  end.

(** Reading back a buffer from its hexadecimal rendering. *)
Fixpoint bytes_of_hex (s : string) : option (list byte) :=
  match s with
  | EmptyString => Some []
  | String c1 (String c2 s') =>
      match digit_value c1, digit_value c2, bytes_of_hex s' with
      | Some h, Some l, Some bs =>
          match Byte.of_N (h * 16 + l)%N with
          | Some b => Some (b :: bs)
          | None => None
          end
      | _, _, _ => None
      end
  | String _ EmptyString => None
  end.

End Hex.

(** ** SHA-256 (FIPS 180-4) and HMAC (RFC 2104)

    [crypto.createHmac('sha256', key).update(msg).digest('hex')] of Node's
    [crypto] module, written out so that tokens can be evaluated. *)

Module SHA256.

Definition mask32 : Z := 0xffffffff.
Definition add32 (x y : Z) : Z := (x + y) mod 2 ^ 32.
Definition rotr (n x : Z) : Z :=
  Z.lor (Z.shiftr x n) (Z.land (Z.shiftl x (32 - n)) mask32).
Definition shr (n x : Z) : Z := Z.shiftr x n.
Definition not32 (x : Z) : Z := Z.lxor x mask32.

Definition Ch (x y z : Z) : Z := Z.lxor (Z.land x y) (Z.land (not32 x) z).
Definition Maj (x y z : Z) : Z :=
  Z.lxor (Z.lxor (Z.land x y) (Z.land x z)) (Z.land y z).
Definition bsig0 (x : Z) : Z := Z.lxor (Z.lxor (rotr 2 x) (rotr 13 x)) (rotr 22 x).
Definition bsig1 (x : Z) : Z := Z.lxor (Z.lxor (rotr 6 x) (rotr 11 x)) (rotr 25 x).
Definition ssig0 (x : Z) : Z := Z.lxor (Z.lxor (rotr 7 x) (rotr 18 x)) (shr 3 x).
Definition ssig1 (x : Z) : Z := Z.lxor (Z.lxor (rotr 17 x) (rotr 19 x)) (shr 10 x).

(** The constants of FIPS 180-4, sections 4.2.2 and 5.3.3: the first 32 bits
    of the fractional parts of the cube roots of the first 64 primes, and of
    the square roots of the first 8 primes. *)
Definition is_prime (n : Z) : bool :=
  (1 <? n) && forallb (fun d => negb (n mod d =? 0))
                      (map Z.of_nat (seq 2 (Z.to_nat n - 2))).

Definition primes (count : nat) : list Z :=
  firstn count (filter is_prime (map Z.of_nat (seq 2 400))).

(** The integer part of the [k]-th root of [n], one bit at a time. *)
Fixpoint iroot (k n : Z) (bits : nat) (r : Z) : Z :=
  match bits with
  | O => r
  | S b =>
      let r' := r + 2 ^ Z.of_nat b in
      iroot k n b (if r' ^ k <=? n then r' else r)
  end.

Definition root_fraction (k p : Z) : Z :=
  iroot k (p * 2 ^ (32 * k)) 40 0 mod 2 ^ 32.

Definition K : list Z := Eval vm_compute in map (root_fraction 3) (primes 64).

Definition H_init : list Z := Eval vm_compute in map (root_fraction 2) (primes 8).

Definition Zbyte (b : byte) : Z := Z.of_N (Byte.to_N b).
Definition byteZ (z : Z) : byte :=
  match Byte.of_N (Z.to_N (z mod 256)) with
  | Some b => b
  | None => x00
  end.

(** Big-endian rendering of [z] on [n] bytes. *)
Fixpoint be_bytes (n : nat) (z : Z) : list byte :=
  match n with
  | O => []
  | S n' => byteZ (Z.shiftr z (8 * Z.of_nat n')) :: be_bytes n' z
  end.

(** Padding: a [0x80] byte, zero bytes up to 56 modulo 64, then the bit
    length on 8 bytes. *)
Definition pad (msg : list byte) : list byte :=
  let len := Z.of_nat (length msg) in
  let zeros := Z.to_nat ((55 - len) mod 64) in
  msg ++ x80 :: repeat x00 zeros ++ be_bytes 8 (8 * len).

(** Big-endian 32-bit words of a buffer (a trailing partial word is
    dropped; padded messages have none). *)
Fixpoint words (bs : list byte) : list Z :=
  match bs with
  | a :: b :: c :: d :: bs' =>
      (Zbyte a * 2 ^ 24 + Zbyte b * 2 ^ 16 + Zbyte c * 2 ^ 8 + Zbyte d) :: words bs'
  | _ => []
  end.

Definition nthw (i : nat) (l : list Z) : Z := nth i l 0.

(** Message schedule, kept newest word first: [rev_w] holds
    [W(t-1), W(t-2), ...]. *)
Fixpoint extend (n : nat) (rev_w : list Z) : list Z :=
  match n with
  | O => rev_w
  | S n' =>
      let wt := add32 (add32 (ssig1 (nthw 1 rev_w)) (nthw 6 rev_w))
                      (add32 (ssig0 (nthw 14 rev_w)) (nthw 15 rev_w)) in
      extend n' (wt :: rev_w)
  end.

Definition schedule (block : list Z) : list Z :=
  rev (extend 48 (rev block)).

Record regs := Regs { ra : Z; rb : Z; rc : Z; rd : Z; re : Z; rf : Z; rg : Z; rh : Z }.

Definition round (s : regs) (kw : Z * Z) : regs :=
  let (k, w) := kw in
  let t1 := add32 (add32 (add32 (rh s) (bsig1 (re s))) (Ch (re s) (rf s) (rg s)))
                  (add32 k w) in
  let t2 := add32 (bsig0 (ra s)) (Maj (ra s) (rb s) (rc s)) in
  Regs (add32 t1 t2) (ra s) (rb s) (rc s) (add32 (rd s) t1) (re s) (rf s) (rg s).

Definition of_list (h : list Z) : regs :=
  Regs (nthw 0 h) (nthw 1 h) (nthw 2 h) (nthw 3 h)
       (nthw 4 h) (nthw 5 h) (nthw 6 h) (nthw 7 h).

Definition compress (h : list Z) (block : list Z) : list Z :=
  let s := fold_left round (combine K (schedule block)) (of_list h) in
  [ add32 (nthw 0 h) (ra s); add32 (nthw 1 h) (rb s);
    add32 (nthw 2 h) (rc s); add32 (nthw 3 h) (rd s);
    add32 (nthw 4 h) (re s); add32 (nthw 5 h) (rf s);
    add32 (nthw 6 h) (rg s); add32 (nthw 7 h) (rh s) ].

(** The 16-word blocks of a word list. *)
Fixpoint blocks (fuel : nat) (ws : list Z) : list (list Z) :=
  match fuel, ws with
  | S f, _ :: _ => firstn 16 ws :: blocks f (skipn 16 ws)
  | _, _ => []
  end.

Definition digest_words (msg : list byte) : list Z :=
  let ws := words (pad msg) in
  fold_left compress (blocks (length ws) ws) H_init.

Definition sha256 (msg : list byte) : list byte :=
  flat_map (be_bytes 4) (digest_words msg).

End SHA256.

Module HMAC.

Definition block_size : nat := 64.

Definition xor_byte (p : Z) (b : byte) : byte :=
  SHA256.byteZ (Z.lxor (SHA256.Zbyte b) p).

(** Keys longer than a block are hashed first; the result is padded with
    zero bytes to a full block. *)
Definition block_key (key : list byte) : list byte :=
  let k := if (block_size <? length key)%nat then SHA256.sha256 key else key in
  k ++ repeat x00 (block_size - length k).

Definition hmac_sha256 (key msg : list byte) : list byte :=
  let k := block_key key in
  SHA256.sha256 (map (xor_byte 0x5c) k ++ SHA256.sha256 (map (xor_byte 0x36) k ++ msg)).

End HMAC.

(** ** JavaScript strings as byte buffers *)

Module Utf8.

(** UTF-8 encoding of one code unit below 256: one byte below 128, two
    bytes from 128 on. *)
Definition encode_char (c : ascii) : list byte :=
  let n := Z.of_N (N_of_ascii c) in
  if n <? 128 then [SHA256.byteZ n]
  else [SHA256.byteZ (Z.lor 0xc0 (Z.shiftr n 6));
        SHA256.byteZ (Z.lor 0x80 (Z.land n 0x3f))].

Fixpoint encode (s : string) : list byte :=
  match s with
  | EmptyString => []
  | String c s' => encode_char c ++ encode s'
  end.

End Utf8.

(** [crypto.createHmac('sha256', key).update(msg).digest('hex')] on two
    strings. *)
Definition hmac_hex (key msg : string) : string :=
  Hex.hex_of_bytes (HMAC.hmac_sha256 (Utf8.encode key) (Utf8.encode msg)).

(** The string of [n] copies of the character [c]. *)
Fixpoint replicate_char (n : nat) (c : ascii) : string :=
  match n with
  | O => EmptyString
  | S n' => String c (replicate_char n' c)
  end.

(** ** String operations of the JavaScript runtime *)

Module Js.

(** [s.startsWith(p)]. *)
Fixpoint starts_with (p s : string) : bool :=
  match p, s with
  | EmptyString, _ => true
  | String a p', String b s' => Ascii.eqb a b && starts_with p' s'
  | String _ _, EmptyString => false
  end.

(** [parts.join(sep)] on an array of strings. *)
Fixpoint join (sep : string) (parts : list string) : string :=
  match parts with
  | [] => EmptyString
  | [x] => x
  | x :: xs => x +:+ sep +:+ join sep xs
  end.

(** [s.split(sep)] for a non-empty separator: the string is scanned from
    the left, every occurrence of [sep] closes the current part and is
    skipped.  [skip] counts the characters of a matched separator still to
    be passed over, [cur] is the part read so far. *)
Fixpoint split_go (sep : string) (skip : nat) (cur s : string) : list string :=
  match s with
  | EmptyString => [cur]
  | String c s' =>
      match skip with
      | S k => split_go sep k cur s'
      | O =>
          if starts_with sep s
          then cur :: split_go sep (String.length sep - 1) EmptyString s'
          else split_go sep 0 (cur +:+ String c EmptyString) s'
      end
  end.

(** With the empty separator [split] yields the single characters. *)
Fixpoint chars (s : string) : list string :=
  match s with
  | EmptyString => []
  | String c s' => String c EmptyString :: chars s'
  end.

Definition split (sep s : string) : list string :=
  match sep with
  | EmptyString => chars s
  | _ => split_go sep 0 EmptyString s
  end.

(** The string [s] with the character at index [i] replaced by [c]; out of
    range nothing changes. *)
Fixpoint set_char (i : nat) (c : ascii) (s : string) : string :=
  match s, i with
  | EmptyString, _ => EmptyString
  | String _ s', O => String c s'
  | String a s', S i' => String a (set_char i' c s')
  end.

(** Number of occurrences of the character [c]. *)
Fixpoint count_char (c : ascii) (s : string) : nat :=
  match s with
  | EmptyString => O
  | String a s' => (if Ascii.eqb a c then 1 else 0) + count_char c s'
  end.

End Js.

(** ** JavaScript values

    The values a parsed request body or an API response can hold.  Numbers
    are the integer-valued ones.  [undefined] is not a constructor: a missing
    property is a failed lookup, [None]. *)

#[warnings="-register-all"]
Inductive JsVal : Type :=
| VNull
| VBool (b : bool)
| VNum (n : Z)
| VStr (s : string)
| VArr (items : list JsVal)
| VObj (fields : gmap string JsVal).

(** Truthiness, as tested by [if (v)] and [!v]. *)
Definition truthy (v : JsVal) : bool :=
  match v with
  | VNull => false
  | VBool b => b
  | VNum n => negb (n =? 0)
  | VStr s => negb (String.eqb s EmptyString)
  | VArr _ | VObj _ => true
  end.

Definition truthy_opt (v : option JsVal) : bool :=
  match v with
  | Some v => truthy v
  | None => false
  end.

(** [v.name] on a value that is known not to be null or undefined. *)
Definition prop (v : JsVal) (name : string) : option JsVal :=
  match v with
  | VObj fields => fields !! name
  | _ => None
  end.

(** ** The process environment of a request

    What a handler reads and writes besides its arguments: the
    configuration, the clock, the random source of [crypto.randomBytes], the
    remote API behind [apiClient], the session object of the request, the
    flash messages, and a log of the calls made to the API client and to the
    token generator.  The log is ghost state: it records which calls a
    handler made, and nothing reads it. *)

Record Config := {
  totp_secret : string;   (* config.totp.secret *)
  u2f_enabled : bool      (* config.u2f.enabled, read through [!] *)
}.

(** The calls made on [apiClient['2fa']], with their arguments without the
    callback. *)
Inductive ApiRequest : Type :=
| VerifyTotp (user : string) (token : option JsVal) (ip : string)
| Disable2fa (user : string) (ip : string)
| CheckTotp (user : string) (token : option JsVal) (ip : string)
| StartU2f (user : string) (ip : string)
| CheckU2f (user : string) (requestData : gmap string JsVal)
| SetupU2f (user : string) (ip : string)
| DisableU2f (user : string) (ip : string)
| EnableU2f (user : string) (requestData : gmap string JsVal).

(** The [err] argument of a callback. *)
Record ApiError := {
  err_message : string;
  err_code : option JsVal
}.

(** What the API client passes to the callback: [(err)] or [(null, data)],
    where [data] can be undefined. *)
Inductive ApiReply : Type :=
| ReplyErr (e : ApiError)
| ReplyOk (data : option JsVal).

Inductive Event : Type :=
| EvApi (rq : ApiRequest)
| EvMint (user : string).

(** [req.session]: the fields the second-factor routes use. *)
Record Session := {
  sess_username : option string;   (* req.session.username *)
  require2fa : bool                (* req.session.require2fa *)
}.

Record Env := {
  env_now : N;                          (* milliseconds since the epoch *)
  env_entropy : nat -> byte;            (* the bytes [crypto.randomBytes] will return *)
  env_api : ApiRequest -> ApiReply;     (* the remote service, as this request sees it *)
  env_session : Session;
  env_flash : list (string * string);
  env_log : list Event
}.

Definition M (A : Type) : Type := Env -> A * Env.

#[global] Instance M_ret : MRet M := fun A (a : A) (e : Env) => (a, e).
#[global] Instance M_bind : MBind M := fun A B (k : A -> M B) (m : M A) (e : Env) =>
  let (a, e') := m e in k a e'.

Definition record (ev : Event) : M unit := fun e =>
  (tt, {| env_now := env_now e; env_entropy := env_entropy e; env_api := env_api e;
          env_session := env_session e; env_flash := env_flash e;
          env_log := env_log e ++ [ev] |}).

(** [Date.now()]. *)
Definition date_now : M N := fun e => (env_now e, e).

(** [crypto.randomBytes(n)]: the next [n] bytes of the random source. *)
Definition random_bytes (n : nat) : M (list byte) := fun e =>
  (map (env_entropy e) (seq 0 n),
   {| env_now := env_now e; env_entropy := fun i => env_entropy e (n + i)%nat;
      env_api := env_api e; env_session := env_session e; env_flash := env_flash e;
      env_log := env_log e |}).

(** [apiClient['2fa'].op(args, callback)]: the call is logged and the reply
    is what the callback receives. *)
Definition call_api (rq : ApiRequest) : M ApiReply := fun e =>
  let (_, e') := record (EvApi rq) e in (env_api e rq, e').

Definition session_username : M (option string) := fun e =>
  (sess_username (env_session e), e).

(** [req.session.require2fa = b]. *)
Definition set_require2fa (b : bool) : M unit := fun e =>
  (tt, {| env_now := env_now e; env_entropy := env_entropy e; env_api := env_api e;
          env_session := {| sess_username := sess_username (env_session e);
                            require2fa := b |};
          env_flash := env_flash e; env_log := env_log e |}).

(** [req.flash(kind, message)]. *)
Definition flash (kind message : string) : M unit := fun e =>
  (tt, {| env_now := env_now e; env_entropy := env_entropy e; env_api := env_api e;
          env_session := env_session e; env_flash := env_flash e ++ [(kind, message)];
          env_log := env_log e |}).

(** ** The remember-device token *)

Section Token.

Variable cfg : Config.

(** <<
    function generate2faRemeberToken(user) {
        let parts = [Date.now().toString(16), crypto.randomBytes(6).toString('hex')];
        let valueStr = parts.join('::');
        let hash = crypto.createHmac('sha256', config.totp.secret + ':' + user)
                         .update(valueStr).digest('hex');
        return valueStr + '::' + hash;
    }
    >> *)
Definition generate2faRemeberToken (user : string) : M string :=
  record (EvMint user);;
  now ← date_now;
  nonce ← random_bytes 6;
  let parts := [Hex.toString16 now; Hex.hex_of_bytes nonce] in
  let valueStr := Js.join "::" parts in
  let hash := hmac_hex (totp_secret cfg +:+ ":" +:+ user) valueStr in
  mret (valueStr +:+ "::" +:+ hash).

(** The key of the signature for an account. *)
Definition signing_key (user : string) : string := totp_secret cfg +:+ ":" +:+ user.

(** The six bytes [crypto.randomBytes(6)] returns in [env]. *)
Definition nonce_of (env : Env) : list byte := map (env_entropy env) (seq 0 6).

(** The signed string of the token minted in [env]. *)
Definition message_of (env : Env) : string :=
  Hex.toString16 (env_now env) +:+ "::" +:+ Hex.hex_of_bytes (nonce_of env).

(** Modelled from the spec: the [Verify] operation of the token codec,
    which [routes/account.js] does not contain.  The token is split into
    its three parts, anything else is invalid; the signature is recomputed
    from the first two parts and compared with the third; the token is
    rejected when [now - timestamp > maxAge].  The user name is part of the
    operation's signature and takes no part in the check. *)
Definition verify (token accountUsername accountId : string)
           (maxAge now : Z) : bool :=
  match Js.split "::" token with
  | [timestampHex; nonceHex; signature] =>
      match Hex.of_hex timestampHex with
      | Some timestamp =>
          String.eqb signature
            (hmac_hex (totp_secret cfg +:+ ":" +:+ accountId)
                      (timestampHex +:+ "::" +:+ nonceHex))
          && negb (maxAge <? now - Z.of_N timestamp)
      | None => false
      end
  | _ => false
  end.

End Token.

Definition no_colon (c : ascii) : bool := negb (Ascii.eqb c ":").

(** The NUL character as a string. *)
Definition nul : string := String "000" EmptyString.

(** A configuration, an account and a request environment to evaluate on. *)
Definition sample_cfg : Config :=
  {| totp_secret := "a secret cat"; u2f_enabled := true |}.

Definition sample_user : string := "5a1bda70bfbd1442cd96c6f0".

Definition sample_env : Env :=
  {| env_now := 1700000000000%N;
     env_entropy := fun i => SHA256.byteZ (Z.of_nat i * 37 + 11);
     env_api := fun _ => ReplyOk None;
     env_session := {| sess_username := Some "bob"; require2fa := true |};
     env_flash := [];
     env_log := [] |}.


(** ** Request validation

    The part of Joi that the routes use: object schemas whose keys are
    strings with a length and a pattern, numbers, and booleans with extra
    truthy and falsy values, validated with
    [{ abortEarly: false, convert: true, allowUnknown: false }]. *)

Module Joi.

Inductive Kind : Type :=
| KString (len : option nat) (pattern : option (string -> bool))
| KNumber
| KBoolean (truthy_values falsy_values : list JsVal).

Record Key := {
  key_kind : Kind;
  key_required : bool;
  key_default : option JsVal
}.

Definition Schema : Type := list (string * Key).

(** The schema builders, in the order the source chains them. *)
Definition string_ : Key := Build_Key (KString None None) false None.
Definition number : Key := Build_Key KNumber false None.
Definition boolean : Key := Build_Key (KBoolean [] []) false None.

Definition length (n : nat) (k : Key) : Key :=
  match key_kind k with
  | KString _ pat => Build_Key (KString (Some n) pat) (key_required k) (key_default k)
  | _ => k
  end.

Definition regex (p : string -> bool) (k : Key) : Key :=
  match key_kind k with
  | KString len _ => Build_Key (KString len (Some p)) (key_required k) (key_default k)
  | _ => k
  end.

Definition required (k : Key) : Key :=
  Build_Key (key_kind k) true (key_default k).

Definition truthy (vs : list JsVal) (k : Key) : Key :=
  match key_kind k with
  | KBoolean _ f => Build_Key (KBoolean vs f) (key_required k) (key_default k)
  | _ => k
  end.

Definition falsy (vs : list JsVal) (k : Key) : Key :=
  match key_kind k with
  | KBoolean t _ => Build_Key (KBoolean t vs) (key_required k) (key_default k)
  | _ => k
  end.

Definition default (v : JsVal) (k : Key) : Key :=
  Build_Key (key_kind k) (key_required k) (Some v).

(** The regular expression [/^[0-9]+$/]: one or more characters, all of
    them ASCII digits ([$] without the [m] flag matches at the end of the
    input only). *)
Definition is_digit (c : ascii) : bool :=
  let n := N_of_ascii c in ((48 <=? n) && (n <=? 57))%N.

Definition numbers (s : string) : bool :=
  negb (String.eqb s EmptyString) && Hex.all_chars is_digit s.

Section Validate.

(** Joi's conversion of a number and of a boolean with the given truthy
    and falsy values: the converted value, or [None] when the value is
    rejected.  They are the library's and depend on its version. *)
Variable convert_number : JsVal -> option JsVal.
Variable convert_boolean : list JsVal -> list JsVal -> JsVal -> option bool.

(** A string is never converted; the empty string is rejected. *)
Definition check (k : Kind) (v : JsVal) : option JsVal :=
  match k with
  | KString len pat =>
      match v with
      | VStr s =>
          if negb (String.eqb s EmptyString)
             && match len with Some n => Nat.eqb (String.length s) n | None => true end
             && match pat with Some p => p s | None => true end
          then Some v else None
      | _ => None
      end
  | KNumber => convert_number v
  | KBoolean t f => VBool <$> convert_boolean t f v
  end.

(** One key of the schema, against the input [body], on the value [acc]
    built so far. *)
Definition validate_key (body : gmap string JsVal) (entry : string * Key)
           (acc : option (gmap string JsVal)) : option (gmap string JsVal) :=
  let (name, k) := entry in
  value ← acc;
  match body !! name with
  | Some v => v' ← check (key_kind k) v; Some (<[name := v']> value)
  | None =>
      if key_required k then None
      else match key_default k with
           | Some d => Some (<[name := d]> value)
           | None => Some value
           end
  end.

(** [Joi.validate(body, schema, options).value], or [None] when
    [.error] is set: keys outside the schema are errors, every key of
    the schema is checked, and the value is the input with the converted
    values and the defaults filled in. *)
Definition validate (schema : Schema) (body : gmap string JsVal)
  : option (gmap string JsVal) :=
  if bool_decide (map_Forall (fun name _ => name ∈ schema.*1) body)
  then foldr (validate_key body) (Some body) schema
  else None.

End Validate.

End Joi.

(** ** Requests and responses *)

Record Request := {
  req_body : gmap string JsVal;   (* req.body, as parsed *)
  req_ip : string;                (* req.ip *)
  req_user : option string;       (* req.user.id; [None] when req.user is undefined *)
  req_csrf : string               (* req.csrfToken() *)
}.

Inductive Response : Type :=
| JsonError (message : string) (code : option JsVal)
    (* res.json({ error: message }) and res.json({ error: message, code: code }) *)
| Json (v : option JsVal)                           (* res.json(v) *)
| Redirect (url : string)                           (* res.redirect(url) *)
| Render (view : string) (locals : gmap string JsVal)   (* res.render(view, locals) *)
| Next (message : string) (status : option Z)       (* next(err) for a new Error *)
| NextApi (e : ApiError)                            (* next(err) for the API client's error *)
| Throw.                                            (* a TypeError leaves the handler *)

(** The object [res.json] serialises for an error reply; an undefined code
    is no property of it. *)
Definition error_body (message : string) (code : option JsVal) : gmap string JsVal :=
  match code with
  | Some c => <[ "code" := c ]> {[ "error" := VStr message ]}
  | None => {[ "error" := VStr message ]}
  end.

(** The loop
    <<
    Object.keys(source).forEach(key => {
        if (names.includes(key)) { requestData[key] = req.body[key]; }
    });
    >>
    An undefined [req.body[key]] leaves no property behind. *)
Definition copy_fields (names : list string) (source body : gmap string JsVal)
           (requestData : gmap string JsVal) : gmap string JsVal :=
  map_fold (fun key _ acc =>
              if bool_decide (key ∈ names)
              then match body !! key with
                   | Some v => <[key := v]> acc
                   | None => acc
                   end
              else acc)
           requestData source.

(** ** The second-factor routes

    Each handler is the body of the route's last callback; the middleware in
    front of it ([passport.parse], [passport.csrf], [passport.checkLogin])
    lives in other files and has run before. *)

Section Routes.

Variable cfg : Config.
Variable convert_number : JsVal -> option JsVal.
Variable convert_boolean : list JsVal -> list JsVal -> JsVal -> option bool.

(** [result.error.message]: Joi's wording, a function of the schema and
    of the rejected input. *)
Variable joi_message : Joi.Schema -> gmap string JsVal -> string.

Definition validate := Joi.validate convert_number convert_boolean.

Definition json_obj (body : gmap string JsVal) : Response := Json (Some (VObj body)).

Definition u2f_disabled : string := "U2F support is disabled".

(** [Joi.boolean().truthy(['Y', 'true', 'yes', 'on', 1])
       .falsy(['N', 'false', 'no', 'off', 0, '']).default(false)]. *)
Definition remember2fa_key : Joi.Key :=
  Joi.default (VBool false)
    (Joi.falsy [VStr "N"; VStr "false"; VStr "no"; VStr "off"; VNum 0; VStr ""]
       (Joi.truthy [VStr "Y"; VStr "true"; VStr "yes"; VStr "on"; VNum 1]
          Joi.boolean)).

(** [Joi.string().length(6).regex(/^[0-9]+$/, 'numbers').required()]. *)
Definition token_key : Joi.Key :=
  Joi.required (Joi.regex Joi.numbers (Joi.length 6 Joi.string_)).

(** [{ username: req.session.username, value: generate2faRemeberToken(req.user.id) }]. *)
Definition remember_value (uid : string) : M JsVal :=
  username ← session_username;
  value ← generate2faRemeberToken cfg uid;
  mret (VObj (match username with
              | Some u => <[ "username" := VStr u ]> {[ "value" := VStr value ]}
              | None => {[ "value" := VStr value ]}
              end)).

(** [router.post('/verify-totp', ...)]. *)
Definition verify_totp_schema : Joi.Schema := [("token", token_key)].

Definition verify_totp (req : Request) : M Response :=
  let body := delete "_csrf" (req_body req) in
  match validate verify_totp_schema body with
  | None => mret (JsonError (joi_message verify_totp_schema body) None)
  | Some value =>
      match req_user req with
      | None => mret Throw
      | Some uid =>
          reply ← call_api (VerifyTotp uid (value !! "token") (req_ip req));
          match reply with
          | ReplyErr err => mret (JsonError (err_message err) (err_code err))
          | ReplyOk _ =>
              flash "success" "Two factor authentication is now enabled";;
              mret (json_obj (<[ "success" := VBool true ]>
                                {[ "targetUrl" := VStr "/account/security" ]}))
          end
      end
  end.

(** [router.post('/disable-2fa', ...)]. *)
Definition disable_2fa (req : Request) : M Response :=
  match req_user req with
  | None => mret Throw
  | Some uid =>
      reply ← call_api (Disable2fa uid (req_ip req));
      match reply with
      | ReplyErr err => mret (NextApi err)
      | ReplyOk _ =>
          set_require2fa false;;
          flash "success" "Two factor authentication is now disabled";;
          mret (Redirect "/account/security")
      end
  end.

(** [router.post('/check-totp', ...)]. *)
Definition check_totp_schema : Joi.Schema :=
  [("token", token_key); ("remember2fa", remember2fa_key)].

Definition check_totp (req : Request) : M Response :=
  let body := delete "_csrf" (req_body req) in
  match validate check_totp_schema body with
  | None => mret (JsonError (joi_message check_totp_schema body) None)
  | Some value =>
      let remember2fa := value !! "remember2fa" in
      match req_user req with
      | None => mret Throw
      | Some uid =>
          reply ← call_api (CheckTotp uid (value !! "token") (req_ip req));
          match reply with
          | ReplyErr err => mret (JsonError (err_message err) (err_code err))
          | ReplyOk result =>
              if negb (truthy_opt result)
              then mret (JsonError "Could not verify token" None)
              else
                let data : gmap string JsVal :=
                  <[ "success" := VBool true ]> {[ "targetUrl" := VStr "/account/" ]} in
                data ← (if truthy_opt remember2fa
                        then r ← remember_value uid; mret (<[ "remember2fa" := r ]> data)
                        else mret data);
                set_require2fa false;;
                mret (json_obj data)
          end
      end
  end.

(** [router.post('/start-u2f', ...)]. *)
Definition start_u2f (req : Request) : M Response :=
  if negb (u2f_enabled cfg) then mret (JsonError u2f_disabled None)
  else
    match req_user req with
    | None => mret Throw
    | Some uid =>
        reply ← call_api (StartU2f uid (req_ip req));
        match reply with
        | ReplyErr err => mret (JsonError (err_message err) None)
        | ReplyOk data => mret (Json data)
        end
    end.

(** [router.post('/check-u2f', ...)]. *)
Definition check_u2f_schema : Joi.Schema :=
  [("keyHandle", Joi.string_); ("clientData", Joi.string_);
   ("signatureData", Joi.string_); ("errorCode", Joi.number);
   ("errorMessage", Joi.string_); ("remember2fa", remember2fa_key)].

Definition check_u2f_fields : list string := ["signatureData"; "clientData"; "errorCode"].

Definition check_u2f (req : Request) : M Response :=
  if negb (u2f_enabled cfg) then mret (JsonError u2f_disabled None)
  else
    let body := delete "_csrf" (req_body req) in
    match validate check_u2f_schema body with
    | None => mret (JsonError (joi_message check_u2f_schema body) None)
    | Some value =>
        let requestData :=
          copy_fields check_u2f_fields value body {[ "ip" := VStr (req_ip req) ]} in
        let remember2fa := value !! "remember2fa" in
        match req_user req with
        | None => mret Throw
        | Some uid =>
            reply ← call_api (CheckU2f uid requestData);
            match reply with
            | ReplyErr err => mret (JsonError (err_message err) None)
            | ReplyOk data =>
                match data with
                | Some (VObj fields) =>
                    if negb (truthy_opt (fields !! "success"))
                    then mret (JsonError "Could not verify key" None)
                    else
                      fields ← (if truthy_opt remember2fa
                                then r ← remember_value uid;
                                     mret (<[ "remember2fa" := r ]> fields)
                                else mret fields);
                      set_require2fa false;;
                      mret (json_obj (<[ "targetUrl" := VStr "/account/" ]> fields))
                | _ =>
                    (* [!data], or a value without a [success] property *)
                    mret (JsonError "Could not verify key" None)
                end
            end
        end
    end.

(** [router.post('/enable-u2f', ...)]. *)
Definition enable_u2f (req : Request) : M Response :=
  if negb (u2f_enabled cfg) then mret (Next u2f_disabled (Some 404))
  else
    mret (Render "account/enable-u2f"
            (<[ "layout" := VStr "layout-popup" ]>
               (<[ "title" := VStr "Two factor authentication" ]>
                  (<[ "activeSecurity" := VBool true ]>
                     {[ "csrfToken" := VStr (req_csrf req) ]})))).

(** [router.post('/setup-u2f', ...)]. *)
Definition setup_u2f (req : Request) : M Response :=
  if negb (u2f_enabled cfg) then mret (JsonError u2f_disabled None)
  else
    match req_user req with
    | None => mret Throw
    | Some uid =>
        reply ← call_api (SetupU2f uid (req_ip req));
        match reply with
        | ReplyErr err => mret (JsonError (err_message err) None)
        | ReplyOk data =>
            flash "success" "U2F key was added to your account";;
            mret (Json data)
        end
    end.

(** [router.post('/disable-u2f', ...)]. *)
Definition disable_u2f (req : Request) : M Response :=
  if negb (u2f_enabled cfg) then mret (Next u2f_disabled (Some 404))
  else
    match req_user req with
    | None => mret Throw
    | Some uid =>
        reply ← call_api (DisableU2f uid (req_ip req));
        match reply with
        | ReplyErr err => mret (NextApi err)
        | ReplyOk None | ReplyOk (Some VNull) => mret Throw
        | ReplyOk (Some data) =>
            if negb (truthy_opt (prop data "success"))
            then mret (Next "Did not receive U2F data" None)
            else
              flash "success" "U2F was disabled";;
              mret (Redirect "/account/security/")
        end
    end.

(** [router.post('/enable-u2f/verify', ...)]: the body is not validated,
    and the file is in strict mode, so assigning [targetUrl] on anything
    that is not an object throws. *)
Definition enable_u2f_fields : list string := ["registrationData"; "clientData"; "errorCode"].

Definition enable_u2f_verify (req : Request) : M Response :=
  if negb (u2f_enabled cfg) then mret (JsonError u2f_disabled None)
  else
    let requestData :=
      copy_fields enable_u2f_fields (req_body req) (req_body req)
                  {[ "ip" := VStr (req_ip req) ]} in
    match req_user req with
    | None => mret Throw
    | Some uid =>
        reply ← call_api (EnableU2f uid requestData);
        match reply with
        | ReplyErr err => mret (JsonError (err_message err) None)
        | ReplyOk (Some (VObj fields)) =>
            mret (json_obj (<[ "targetUrl" := VStr "/account/security" ]> fields))
        | ReplyOk (Some (VArr items)) => mret (Json (Some (VArr items)))
        | ReplyOk _ => mret Throw
        end
    end.

(** The router's table for the second-factor paths. *)
Inductive Route : Type :=
| PostVerifyTotp | PostDisable2fa | PostCheckTotp
| PostStartU2f | PostCheckU2f | PostEnableU2f
| PostSetupU2f | PostDisableU2f | PostEnableU2fVerify.

Definition handler (r : Route) : Request -> M Response :=
  match r with
  | PostVerifyTotp => verify_totp
  | PostDisable2fa => disable_2fa
  | PostCheckTotp => check_totp
  | PostStartU2f => start_u2f
  | PostCheckU2f => check_u2f
  | PostEnableU2f => enable_u2f
  | PostSetupU2f => setup_u2f
  | PostDisableU2f => disable_u2f
  | PostEnableU2fVerify => enable_u2f_verify
  end.

(** The security-key routes. *)
Definition is_u2f_route (r : Route) : bool :=
  match r with
  | PostStartU2f | PostCheckU2f | PostEnableU2f
  | PostSetupU2f | PostDisableU2f | PostEnableU2fVerify => true
  | _ => false
  end.

End Routes.

(** ** Sessions of an account and the factor registry

    A request runs in the session its cookie names: [req.user] and
    [req.session] are loaded from the session store, the handler runs, and
    the session object is stored back.  The registry of enrolled factors is
    kept by the remote service. *)

Record Factors := {
  totp_active : bool;   (* an Active TOTP enrollment *)
  u2f_active : bool     (* an Active security-key enrollment *)
}.

Definition no_factors : Factors := {| totp_active := false; u2f_active := false |}.

(** Number of Active factors of an account. *)
Definition active_factors (reg : gmap string Factors) (account : string) : nat :=
  let f := default no_factors (reg !! account) in
  ((if totp_active f then 1 else 0) + (if u2f_active f then 1 else 0))%nat.

(** Modelled from the spec: the Second-Factor Registry behind the remote
    API, which [routes/account.js] only calls.  A confirmation that
    succeeded makes the kind Active, [Disable(kind)] removes the kind, and
    [DisableAll] removes every record of the account. *)
Definition registry_effect (rq : ApiRequest) (reply : ApiReply)
           (reg : gmap string Factors) : gmap string Factors :=
  let f u := default no_factors (reg !! u) in
  match rq, reply with
  | VerifyTotp u _ _, ReplyOk _ =>
      <[ u := {| totp_active := true; u2f_active := u2f_active (f u) |} ]> reg
  | EnableU2f u _, ReplyOk (Some (VObj _)) =>
      <[ u := {| totp_active := totp_active (f u); u2f_active := true |} ]> reg
  | DisableU2f u _, ReplyOk (Some data) =>
      if truthy_opt (prop data "success")
      then <[ u := {| totp_active := totp_active (f u); u2f_active := false |} ]> reg
      else reg
  | Disable2fa u _, ReplyOk _ => delete u reg
  | _, _ => reg
  end.

Record Stored := {
  st_user : string;       (* the account the session is logged in to *)
  st_session : Session
}.

Record System := {
  sys_registry : gmap string Factors;
  sys_sessions : gmap string Stored
}.

(** What the request left in the registry: the effect of each logged API
    call, in order. *)
Definition apply_log (api : ApiRequest -> ApiReply) (log : list Event)
           (reg : gmap string Factors) : gmap string Factors :=
  fold_left (fun reg ev =>
               match ev with
               | EvApi rq => registry_effect rq (api rq) reg
               | EvMint _ => reg
               end) log reg.

Section Serve.

Variable cfg : Config.
Variable convert_number : JsVal -> option JsVal.
Variable convert_boolean : list JsVal -> list JsVal -> JsVal -> option bool.
Variable joi_message : Joi.Schema -> gmap string JsVal -> string.

(** The ambient inputs of one request. *)
Record Ambient := {
  amb_now : N;
  amb_entropy : nat -> byte;
  amb_api : ApiRequest -> ApiReply
}.

(** One request on route [r] carrying the cookie of session [sid]; a
    request without a stored session is not served. *)
Definition serve (r : Route) (sid : string) (body : gmap string JsVal)
           (ip csrf : string) (amb : Ambient) (sys : System)
  : option (Response * System) :=
  st ← sys_sessions sys !! sid;
  let req := {| req_body := body; req_ip := ip;
                req_user := Some (st_user st); req_csrf := csrf |} in
  let env := {| env_now := amb_now amb; env_entropy := amb_entropy amb;
                env_api := amb_api amb; env_session := st_session st;
                env_flash := []; env_log := [] |} in
  let (resp, env') := handler cfg convert_number convert_boolean joi_message r req env in
  Some (resp,
        {| sys_registry := apply_log (amb_api amb) (env_log env') (sys_registry sys);
           sys_sessions :=
             <[ sid := {| st_user := st_user st; st_session := env_session env' |} ]>
               (sys_sessions sys) |}).

End Serve.

(** The gate invariant of the spec: a session of an account without Active
    factors does not require a second factor. *)
Definition gate_invariant (sys : System) : Prop :=
  forall sid st,
    sys_sessions sys !! sid = Some st ->
    active_factors (sys_registry sys) (st_user st) = 0%nat ->
    require2fa (st_session st) = false.

(** ** Outcomes and observations *)

(** A failure outcome: an error reply, an error handed to [next], or an
    exception. *)
Definition is_error (r : Response) : bool :=
  match r with
  | JsonError _ _ | Next _ _ | NextApi _ | Throw => true
  | Json _ | Redirect _ | Render _ _ => false
  end.

(** The events a handler added to the log of [env], given the environment
    [env'] it left. *)
Definition events_since (env env' : Env) : list Event :=
  drop (length (env_log env)) (env_log env').

(** The provider's answer to a TOTP check counts as success:
    [!err && result]. *)
Definition totp_verified (reply : ApiReply) : bool :=
  match reply with
  | ReplyOk result => truthy_opt result
  | ReplyErr _ => false
  end.

(** The provider's answer to a security-key check counts as success:
    [!err && data && data.success]. *)
Definition u2f_verified (reply : ApiReply) : bool :=
  match reply with
  | ReplyOk (Some data) => truthy data && truthy_opt (prop data "success")
  | _ => false
  end.

(** The two routes that verify a factor at login, with their schemas and
    their readings of the provider's answer. *)
Definition is_check_route (r : Route) : bool :=
  match r with
  | PostCheckTotp | PostCheckU2f => true
  | _ => false
  end.

Definition check_schema (r : Route) : Joi.Schema :=
  match r with
  | PostCheckTotp => check_totp_schema
  | _ => check_u2f_schema
  end.

Definition verified (r : Route) : ApiReply -> bool :=
  match r with
  | PostCheckTotp => totp_verified
  | _ => u2f_verified
  end.

(** The two routes that take a TOTP code, with their schemas and the API
    call they make. *)
Definition is_totp_route (r : Route) : bool :=
  match r with
  | PostCheckTotp | PostVerifyTotp => true
  | _ => false
  end.

Definition totp_schema (r : Route) : Joi.Schema :=
  match r with
  | PostCheckTotp => check_totp_schema
  | _ => verify_totp_schema
  end.

Definition totp_call (r : Route) : string -> option JsVal -> string -> ApiRequest :=
  match r with
  | PostCheckTotp => CheckTotp
  | _ => VerifyTotp
  end.

(** The API calls among the events. *)
Definition api_calls (evs : list Event) : list ApiRequest :=
  omap (fun ev => match ev with EvApi rq => Some rq | EvMint _ => None end) evs.

(** A code of exactly six ASCII digits. *)
Definition six_digits (v : option JsVal) : bool :=
  match v with
  | Some (VStr s) => Nat.eqb (String.length s) 6 && Hex.all_chars Joi.is_digit s
  | _ => false
  end.

(** The fields of a [/check-u2f] body that validation accepts and the
    handler does not forward. *)
Definition check_u2f_dropped : list string := ["keyHandle"; "errorMessage"; "remember2fa"].

(** Stand-ins for the library's conversions and wording, to evaluate the
    handlers on examples. *)
Definition sample_convert_number (v : JsVal) : option JsVal :=
  match v with
  | VNum n => Some (VNum n)
  | _ => None
  end.

Definition sample_convert_boolean (t f : list JsVal) (v : JsVal) : option bool :=
  match v with
  | VBool b => Some b
  | VStr "on" => Some true
  | VStr "off" => Some false
  | _ => None
  end.

Definition sample_joi_message (schema : Joi.Schema) (body : gmap string JsVal) : string :=
  "ValidationError".

(** ** Sample requests

    A provider that confirms the code 123456 and every security-key
    response, a login session that still requires the second factor, and
    requests to run the handlers on. *)

Definition sample_api (rq : ApiRequest) : ApiReply :=
  match rq with
  | CheckTotp _ (Some (VStr "123456")) _ => ReplyOk (Some (VBool true))
  | CheckTotp _ _ _ => ReplyOk (Some (VBool false))
  | VerifyTotp _ (Some (VStr "123456")) _ => ReplyOk None
  | VerifyTotp _ _ _ =>
      ReplyErr {| err_message := "Invalid token"; err_code := Some (VStr "InvalidToken") |}
  | _ => ReplyOk (Some (VObj {[ "success" := VBool true ]}))
  end.

Definition sample_login_env : Env :=
  {| env_now := 1700000000000%N;
     env_entropy := fun i => SHA256.byteZ (Z.of_nat i * 37 + 11);
     env_api := sample_api;
     env_session := {| sess_username := Some "bob"; require2fa := true |};
     env_flash := [];
     env_log := [] |}.

Definition sample_request (body : gmap string JsVal) : Request :=
  {| req_body := body; req_ip := "192.0.2.7";
     req_user := Some sample_user; req_csrf := "c5rf" |}.

Definition totp_body (code : string) : gmap string JsVal :=
  <[ "token" := VStr code ]>
    (<[ "remember2fa" := VStr "on" ]> {[ "_csrf" := VStr "c5rf" ]}).

Definition u2f_body (keyHandle : string) (remember : bool) : gmap string JsVal :=
  <[ "signatureData" := VStr "c2ln" ]>
    (<[ "clientData" := VStr "Y2xpZW50" ]>
       (<[ "keyHandle" := VStr keyHandle ]> {[ "remember2fa" := VBool remember ]})).

Definition sample_cfg_no_u2f : Config :=
  {| totp_secret := "a secret cat"; u2f_enabled := false |}.

(** One account with an Active TOTP enrollment and two sessions: ["A"] has
    presented the factor, ["B"] has not yet. *)
Definition sample_system : System :=
  {| sys_registry := {[ sample_user := {| totp_active := true; u2f_active := false |} ]};
     sys_sessions :=
       <[ "A" := {| st_user := sample_user;
                    st_session := {| sess_username := Some "bob"; require2fa := false |} |} ]>
         {[ "B" := {| st_user := sample_user;
                      st_session := {| sess_username := Some "bob"; require2fa := true |} |} ]} |}.

Definition sample_ambient : Ambient :=
  {| amb_now := 1700000000000%N;
     amb_entropy := fun i => SHA256.byteZ (Z.of_nat i * 37 + 11);
     amb_api := sample_api |}.

(** ** Observations on every route *)

(** The account an API call acts on. *)
Definition api_user (rq : ApiRequest) : string :=
  match rq with
  | VerifyTotp u _ _ | Disable2fa u _ | CheckTotp u _ _ | StartU2f u _
  | CheckU2f u _ | SetupU2f u _ | DisableU2f u _ | EnableU2f u _ => u
  end.

(** The request [req] with another body. *)
Definition with_body (req : Request) (body : gmap string JsVal) : Request :=
  {| req_body := body; req_ip := req_ip req;
     req_user := req_user req; req_csrf := req_csrf req |}.

(** The routes that validate the body, with the schema they use. *)
Definition validated_schema (r : Route) : option Joi.Schema :=
  match r with
  | PostVerifyTotp => Some verify_totp_schema
  | PostCheckTotp => Some check_totp_schema
  | PostCheckU2f => Some check_u2f_schema
  | _ => None
  end.

(** The routes with an assignment to [req.session.require2fa]. *)
Definition writes_session (r : Route) : bool :=
  match r with
  | PostDisable2fa | PostCheckTotp | PostCheckU2f => true
  | _ => false
  end.

(** The routes with a call to [req.flash]. *)
Definition writes_flash (r : Route) : bool :=
  match r with
  | PostVerifyTotp | PostDisable2fa | PostSetupU2f | PostDisableU2f => true
  | _ => false
  end.

(** The call a login check makes for the user [uid]. *)
Definition check_call (r : Route) (req : Request) (uid : string) : ApiRequest :=
  match r with
  | PostCheckTotp => CheckTotp uid (req_body req !! "token") (req_ip req)
  | _ =>
      CheckU2f uid (<[ "ip" := VStr (req_ip req) ]>
                      (filter (fun kv => kv.1 ∈ check_u2f_fields) (req_body req)))
  end.

(** ** Showing an application password

    [/asp/create] renders the new password as
    [response.password.replace(/.{4}/g, '$& ').trim()]. *)

(** The line terminators among the code units below 256: the characters
    [.] does not match. *)
Definition is_line_terminator (c : ascii) : bool :=
  let n := N_of_ascii c in ((n =? 10) || (n =? 13))%N.

(** The characters [trim] removes, among the code units below 256: tab,
    line feed, vertical tab, form feed, carriage return, space and the
    no-break space. *)
Definition is_white_space (c : ascii) : bool :=
  let n := N_of_ascii c in
  (((9 <=? n) && (n <=? 13)) || (n =? 32) || (n =? 160))%N.

(** [s.replace(/.{4}/g, '$& ')]: from the left, every run of four
    characters that [.] matches is followed by a space; where no match
    starts, the character is copied and the search moves on by one. *)
Fixpoint replace_groups (s : string) : string :=
  match s with
  | EmptyString => EmptyString
  | String a s1 =>
      match s1 with
      | String b (String c (String d rest)) =>
          if negb (is_line_terminator a) && negb (is_line_terminator b)
             && negb (is_line_terminator c) && negb (is_line_terminator d)
          then String a (String b (String c (String d (String " " (replace_groups rest)))))
          else String a (replace_groups s1)
      | _ => s
      end
  end.

(** [s.trimStart()], [s.trimEnd()] and [s.trim()]. *)
Fixpoint trim_start (s : string) : string :=
  match s with
  | EmptyString => EmptyString
  | String c s' => if is_white_space c then trim_start s' else s
  end.

Fixpoint trim_end (s : string) : string :=
  match s with
  | EmptyString => EmptyString
  | String c s' =>
      match trim_end s' with
      | EmptyString => if is_white_space c then EmptyString else String c EmptyString
      | t => String c t
      end
  end.

Definition trim (s : string) : string := trim_end (trim_start s).

(** [passwordFormatted] of the page [account/asp]. *)
Definition passwordFormatted (password : string) : string :=
  trim (replace_groups password).

(** The string cut into pieces of four characters, the last one shorter
    when the length is no multiple of four. *)
Fixpoint groups_of_four (s : string) : list string :=
  match s with
  | EmptyString => []
  | String a (String b (String c (String d rest))) =>
      String a (String b (String c (String d EmptyString))) :: groups_of_four rest
  | _ => [s]
  end.

(** The string without its space characters. *)
Fixpoint without_spaces (s : string) : string :=
  match s with
  | EmptyString => EmptyString
  | String c s' => if Ascii.eqb c " " then without_spaces s' else String c (without_spaces s')
  end.

(** A string without white-space characters. *)
Definition no_white_space (s : string) : bool :=
  Hex.all_chars (fun c => negb (is_white_space c)) s.

(** ** Listing the application passwords

    [/security] shows [asps.reverse().map((entry, i) => ...)]. *)

(** An application password as the API lists it: [scopes] is an array of
    strings, the other properties are in [asp_fields]. *)
Record Asp := {
  asp_fields : gmap string JsVal;
  asp_scopes : list string
}.

(** [entry.scopes.includes('*') ? 'All' : entry.scopes.join(', ')]. *)
Definition scope_label (scopes : list string) : string :=
  if bool_decide ("*" ∈ scopes) then "All" else Js.join ", " scopes.

(** The body of the [map] callback: [entry.index = i + 1; entry.scope = ...]. *)
Definition number_entry (i : nat) (entry : Asp) : Asp :=
  {| asp_fields :=
       <[ "scope" := VStr (scope_label (asp_scopes entry)) ]>
         (<[ "index" := VNum (Z.of_nat i + 1) ]> (asp_fields entry));
     asp_scopes := asp_scopes entry |}.

Definition listed_asps (asps : list Asp) : list Asp :=
  imap number_entry (reverse asps).

(** ** The authentication log

    [/security/logins] rewrites every entry of the log before rendering
    it. *)

(** [new Map([...])]: the pairs are set in order, a later pair for a key
    replaces an earlier one. *)
Definition js_map (pairs : list (string * string)) : gmap string string :=
  foldl (fun m kv => <[ kv.1 := kv.2 ]> m) ∅ pairs.

Definition AUTH_EVENTS : gmap string string :=
  js_map
    [ ("create asp", "Create new Application Specific Password");
      ("delete asp", "Deleted Application Specific Password");
      ("account created", "Account was created");
      ("enable 2fa totp", "Enable 2FA mobile authenticator");
      ("disable 2fa totp", "Disable 2FA mobile authenticator");
      ("check 2fa totp", "Authenticating with mobile authenticator");
      ("enable 2fa u2f", "Enable 2FA security key");
      ("disable 2fa u2f", "Disable 2FA security key");
      ("check 2fa u2f", "Authenticating with security key");
      ("disable 2fa", "Disable 2FA on account");
      ("password change", "Changing account password");
      ("authentication", "Authenticating with password") ].

(** [AUTH_EVENTS.get(action) || action], when it differs from [action]:
    the description of a known event, if it is truthy. *)
Definition event_description (action : option JsVal) : option string :=
  match action with
  | Some (VStr a) =>
      match AUTH_EVENTS !! a with
      | Some d => if String.eqb d EmptyString then None else Some d
      | None => None
      end
  | _ => None
  end.

(** The steps of the [forEach] callback on an entry. *)
Definition wrap_asp (entry : gmap string JsVal) : gmap string JsVal :=
  match entry !! "asp" with
  | Some asp =>
      if truthy asp
      then <[ "asp" := VObj (match entry !! "aname" with
                             | Some name => <[ "name" := name ]> {[ "id" := asp ]}
                             | None => {[ "id" := asp ]}
                             end) ]> entry
      else entry
  | None => entry
  end.

(** [v === s] for a string [s]. *)
Definition is_string (s : string) (v : JsVal) : bool :=
  match v with
  | VStr s' => String.eqb s' s
  | _ => false
  end.

Definition default_protocol (entry : gmap string JsVal) : gmap string JsVal :=
  match entry !! "protocol" with
  | Some p =>
      if negb (truthy p) || is_string "API" p
      then <[ "protocol" := VStr "Web" ]> entry
      else entry
  | None => <[ "protocol" := VStr "Web" ]> entry
  end.

Definition describe_action (entry : gmap string JsVal) : gmap string JsVal :=
  match event_description (entry !! "action") with
  | Some d => <[ "action" := VStr d ]> entry
  | None => entry
  end.

Definition label_result (entry : gmap string JsVal) : gmap string JsVal :=
  match entry !! "result" with
  | Some result =>
      if is_string "success" result
      then <[ "result" := VStr "Success" ]> (<[ "label" := VStr "success" ]> entry)
      else if is_string "fail" result
      then <[ "result" := VStr "Failed" ]> (<[ "label" := VStr "danger" ]> entry)
      else entry
  | None => entry
  end.

Definition show_entry (entry : gmap string JsVal) : gmap string JsVal :=
  label_result (describe_action (default_protocol (wrap_asp entry))).

(** ** Collecting validation errors

    [/create] and [/enable-2fa] keep one message per field:
    <<
    let errors = {};
    result.error.details.forEach(detail => {
        if (!errors[detail.path]) { errors[detail.path] = detail.message; }
    });
    >>
    A detail is the property key its [path] denotes and its message. *)
Definition collect_step (errors : gmap string JsVal) (detail : string * string)
  : gmap string JsVal :=
  if negb (truthy_opt (errors !! detail.1))
  then <[ detail.1 := VStr detail.2 ]> errors
  else errors.

Definition collect_errors (details : list (string * string)) : gmap string JsVal :=
  foldl collect_step ∅ details.

(** ** The account pages

    The routes that create an account and manage application passwords
    talk to other parts of the API client and answer with pages and
    redirects.  Their handlers run over the flash messages and a log of the
    calls they make. *)

(** [config.totp.issuer] and [config.name]. *)
Record SiteConfig := {
  totp_issuer : option JsVal;   (* config.totp.issuer *)
  site_name : option JsVal      (* config.name *)
}.

(** [config.service]. *)
Record ServiceConfig := {
  allowJoin : bool;    (* config.service.allowJoin, read through [!] *)
  domain : string      (* config.service.domain *)
}.

(** The calls on [apiClient.users] and [apiClient.asps], with their
    arguments without the callback. *)
Inductive AccountCall : Type :=
| UsersCreate (data : gmap string JsVal)
| AspsDel (user : string) (id : string) (ip : string)
| AspsCreate (user : string) (data : gmap string JsVal)
| SetupTotp (user : string) (issuer : option JsVal) (fresh : bool) (ip : string).

(** The [err] of these callbacks: [fields] holds per-field messages when
    the API rejected the input. *)
Record AccountError := {
  aerr_message : string;
  aerr_fields : option (gmap string JsVal)
}.

Inductive AccountReply : Type :=
| AccErr (e : AccountError)
| AccOk (data : option JsVal).

Inductive PageResponse : Type :=
| PRender (view : string) (locals : gmap string JsVal)   (* res.render(view, locals) *)
| PRedirect (url : string)                               (* res.redirect(url) *)
| PNext (message : string) (status : option Z)           (* next(err) for a new Error *)
| PNextErr (e : AccountError)                            (* next(err) for the API client's error *)
| PThrow.                                                (* a TypeError leaves the handler *)

Record Page := {
  page_api : AccountCall -> AccountReply;   (* the remote service *)
  page_flash : list (string * string);      (* req.flash *)
  page_calls : list AccountCall             (* the calls made, in order *)
}.

Definition P (A : Type) : Type := Page -> A * Page.

#[global] Instance P_ret : MRet P := fun A (a : A) (pg : Page) => (a, pg).
#[global] Instance P_bind : MBind P := fun A B (k : A -> P B) (m : P A) (pg : Page) =>
  let (a, pg') := m pg in k a pg'.

(** A call on the API client: it is logged, and the reply is what the
    callback receives. *)
Definition call_account (rq : AccountCall) : P AccountReply := fun pg =>
  (page_api pg rq,
   {| page_api := page_api pg; page_flash := page_flash pg;
      page_calls := page_calls pg ++ [rq] |}).

(** [req.flash(kind, message)]. *)
Definition page_flash_add (kind message : string) : P unit := fun pg =>
  (tt, {| page_api := page_api pg; page_flash := page_flash pg ++ [(kind, message)];
          page_calls := page_calls pg |}).

(** [details.forEach(detail => { req.flash('danger', detail.message); })]. *)
Definition flash_details (details : list (string * string)) : P unit := fun pg =>
  (tt, {| page_api := page_api pg;
          page_flash := page_flash pg ++ map (fun d => ("danger", d.2)) details;
          page_calls := page_calls pg |}).

(** The calls and the flash messages a handler added, given the state
    [pg'] it left. *)
Definition calls_since (pg pg' : Page) : list AccountCall :=
  drop (length (page_calls pg)) (page_calls pg').

Definition flashes_since (pg pg' : Page) : list (string * string) :=
  drop (length (page_flash pg)) (page_flash pg').

(** The double quote character as a string. *)
Definition double_quote : string := String "034" EmptyString.

Section AccountPages.

Variable service : ServiceConfig.

(** [result.error.details] of a rejected body, as keys and messages: the
    wording and the number of Joi's complaints are the library's. *)
Variable joi_details : gmap string JsVal -> list (string * string).

(** The package [role-based-email-addresses]: a list of user names. *)
Variable roleBasedAddresses : list string.

(** *** Deleting an application password *)

(** A hexadecimal digit, as the pattern [/^[a-f0-9]+$/i] of [hex()] has it. *)
Definition is_hex_digit (c : ascii) : bool :=
  match Hex.digit_value c with
  | Some _ => true
  | None => false
  end.

(** [Joi.string().trim().hex().length(24).required()] under [convert]:
    the value is trimmed first, and the trimmed string is checked and
    handed on. *)
Definition validate_asp_id (v : option JsVal) : option string :=
  match v with
  | Some (VStr s) =>
      let id := trim s in
      if Nat.eqb (String.length id) 24 && Hex.all_chars is_hex_digit id
      then Some id else None
  | _ => None
  end.

(** The schema [{ id: ... }] with [allowUnknown: false]. *)
Definition validate_asp_delete (body : gmap string JsVal) : option string :=
  if bool_decide (map_Forall (fun name _ => name = "id") body)
  then validate_asp_id (body !! "id")
  else None.

(** [router.post('/asp/delete', ...)]. *)
Definition asp_delete (req : Request) : P PageResponse :=
  let body := delete "_csrf" (req_body req) in
  match validate_asp_delete body with
  | None =>
      flash_details (joi_details body);;
      mret (PRedirect "/account/security")
  | Some id =>
      match req_user req with
      | None => mret PThrow
      | Some uid =>
          reply ← call_account (AspsDel uid id (req_ip req));
          match reply with
          | AccErr _ =>
              page_flash_add "danger" "Database Error, failed to delete data";;
              mret (PRedirect "/account/security")
          | AccOk _ =>
              page_flash_add "success" "Application specific password was deleted";;
              mret (PRedirect "/account/security")
          end
      end
  end.

(** *** Creating an application password *)

(** What Joi makes of the body of [/asp/create]: the complaints, or the
    validated value with its description, a string. *)
Inductive AspCreateResult : Type :=
| AspCreateInvalid
| AspCreateValid (description : string).

Variable joi_asp_create : gmap string JsVal -> AspCreateResult.

(** [router.post('/asp/create', ...)]: [response.password.replace] throws
    unless the response is an object with a string [password]. *)
Definition asp_create (req : Request) : P PageResponse :=
  let body := delete "_csrf" (req_body req) in
  match joi_asp_create body with
  | AspCreateInvalid =>
      flash_details (joi_details body);;
      mret (PRedirect "/account/security")
  | AspCreateValid description =>
      let data : gmap string JsVal :=
        <[ "description" := VStr description ]>
          (<[ "scopes" := VStr "*" ]>
             (<[ "generateMobileconfig" := VBool true ]>
                {[ "ip" := VStr (req_ip req) ]})) in
      match req_user req with
      | None => mret PThrow
      | Some uid =>
          reply ← call_account (AspsCreate uid data);
          match reply with
          | AccErr e =>
              page_flash_add "danger" (aerr_message e);;
              mret (PRedirect "/account/security")
          | AccOk (Some (VObj response)) =>
              match response !! "password" with
              | Some (VStr password) =>
                  let locals : gmap string JsVal :=
                    <[ "layout" := VStr "layout-popup" ]>
                      (<[ "description" := VStr description ]>
                         (<[ "password" := VStr password ]>
                            (<[ "csrfToken" := VStr (req_csrf req) ]>
                               {[ "passwordFormatted" := VStr (passwordFormatted password) ]}))) in
                  mret (PRender "account/asp"
                          (match response !! "mobileconfig" with
                           | Some m => <[ "mobileconfig" := m ]> locals
                           | None => locals
                           end))
              | _ => mret PThrow
              end
          | AccOk _ => mret PThrow
          end
      end
  end.

(** *** Creating an account *)

Definition registration_disabled : string := "User registration is disabled".

(** [router.get('/create', ...)]. *)
Definition get_create (req : Request) : P PageResponse :=
  if negb (allowJoin service) then mret (PNext registration_disabled (Some 404))
  else
    mret (PRender "account/create"
            (<[ "title" := VStr "Create new account" ]>
               (<[ "activeCreate" := VBool true ]>
                  {[ "csrfToken" := VStr (req_csrf req) ]}))).

(** What Joi makes of the body of [/create]: the complaints with the
    value as far as converted, or the validated value, whose [name],
    [username] and [password] are required strings. *)
Inductive CreateResult : Type :=
| CreateInvalid (value : gmap string JsVal)
| CreateValid (name username password : string) (value : gmap string JsVal).

Variable joi_create : gmap string JsVal -> CreateResult.

Definition reserved_usernames : list string :=
  ["abuse"; "admin"; "administrator"; "hostmaster"; "majordomo"; "postmaster";
   "root"; "ssl-admin"; "webmaster"].

(** [showErrors(errors, disableDefault)]. *)
Definition show_create_errors (req : Request) (value errors : gmap string JsVal)
           (disableDefault : bool) : P PageResponse :=
  (if negb disableDefault
   then page_flash_add "danger" "Failed creating account"
   else mret tt);;
  mret (PRender "account/create"
          (<[ "title" := VStr "Create new account" ]>
             (<[ "values" := VObj value ]>
                (<[ "errors" := VObj errors ]>
                   (<[ "activeCreate" := VBool true ]>
                      {[ "csrfToken" := VStr (req_csrf req) ]}))))).

(** The account [/create] asks the API for. *)
Definition new_account (name username password ip : string) : gmap string JsVal :=
  <[ "name" := VStr name ]>
    (<[ "username" := VStr username ]>
       (<[ "password" := VStr password ]>
          (<[ "address" := VStr (username +:+ "@" +:+ domain service) ]>
             (<[ "recipients" := VNum 500 ]>
                (<[ "forwards" := VNum 500 ]>
                   (<[ "quota" := VNum (1 * 1024 * 1024 * 1024) ]>
                      {[ "ip" := VStr ip ]})))))).

(** [router.post('/create', ...)]. *)
Definition post_create (req : Request) : P PageResponse :=
  if negb (allowJoin service) then mret (PNext registration_disabled (Some 404))
  else
    let body := delete "_csrf" (req_body req) in
    match joi_create body with
    | CreateInvalid value =>
        show_create_errors req value (collect_errors (joi_details body)) false
    | CreateValid name username password value =>
        if bool_decide (username ∈ reserved_usernames)
           || bool_decide (username ∈ roleBasedAddresses)
        then
          show_create_errors req value
            {[ "username" := VStr (double_quote +:+ username +:+ double_quote
                                   +:+ " is a reserved username") ]}
            false
        else
          reply ← call_account
                    (UsersCreate (new_account name username password (req_ip req)));
          match reply with
          | AccErr e =>
              match aerr_fields e with
              | Some fields => show_create_errors req value fields false
              | None =>
                  page_flash_add "danger" (aerr_message e);;
                  show_create_errors req value ∅ true
              end
          | AccOk _ =>
              page_flash_add "success"
                ("Account created for " +:+ username +:+ " with address "
                 +:+ username +:+ "@" +:+ domain service);;
              mret (PRedirect "/account/login/")
          end
    end.

(** *** Setting up TOTP *)

Variable site : SiteConfig.
Variable convert_number : JsVal -> option JsVal.
Variable convert_boolean : list JsVal -> list JsVal -> JsVal -> option bool.

(** [{ token: Joi.string().length(6).regex(/^[0-9]+$/, 'numbers') }]: the
    token is not required. *)
Definition enable_2fa_schema : Joi.Schema :=
  [("token", Joi.regex Joi.numbers (Joi.length 6 Joi.string_))].

(** [config.totp.issuer || config.name]. *)
Definition issuer : option JsVal :=
  if truthy_opt (totp_issuer site) then totp_issuer site else site_name site.

(** The page both branches render, with or without the errors; an
    undefined [data.qrcode] leaves no [imageUrl]. *)
Definition enable_2fa_page (req : Request) (data : JsVal)
           (errors : option (gmap string JsVal)) : gmap string JsVal :=
  let base : gmap string JsVal :=
    <[ "layout" := VStr "layout-popup" ]>
      (<[ "title" := VStr "Two factor authentication" ]>
         (<[ "activeSecurity" := VBool true ]>
            {[ "csrfToken" := VStr (req_csrf req) ]})) in
  let with_image :=
    match prop data "qrcode" with
    | Some url => <[ "imageUrl" := url ]> base
    | None => base
    end in
  match errors with
  | Some errors =>
      <[ "activeLogin" := VBool true ]> (<[ "errors" := VObj errors ]> with_image)
  | None => with_image
  end.

(** [router.post('/enable-2fa', ...)]: a rejected body shows its errors
    over the secret that is pending ([setupTotp] with [false]); an accepted
    body asks for a fresh secret ([setupTotp] with [true]).  The token
    itself goes nowhere. *)
Definition enable_2fa (req : Request) : P PageResponse :=
  let body := delete "_csrf" (req_body req) in
  let result := Joi.validate convert_number convert_boolean enable_2fa_schema body in
  let errors :=
    match result with
    | None => Some (collect_errors (joi_details body))
    | Some _ => None
    end in
  match req_user req with
  | None => mret PThrow
  | Some uid =>
      reply ← call_account
                (SetupTotp uid issuer (bool_decide (is_Some result)) (req_ip req));
      match reply with
      | AccErr e => mret (PNextErr e)
      | AccOk None | AccOk (Some VNull) => mret PThrow
      | AccOk (Some data) =>
          mret (PRender "account/enable-2fa" (enable_2fa_page req data errors))
      end
  end.

End AccountPages.

(** ** Sample pages

    A service that creates every account and application password asked
    for, stand-ins for Joi on the forms, and requests to run the page
    handlers on. *)

Definition sample_account_api (rq : AccountCall) : AccountReply :=
  match rq with
  | UsersCreate _ => AccOk (Some (VObj {[ "success" := VBool true ]}))
  | AspsDel _ _ _ => AccOk (Some (VBool true))
  | AspsCreate _ _ =>
      AccOk (Some (VObj (<[ "id" := VStr "5a1d2816153888cdcd62a715" ]>
                           {[ "password" := VStr "slrfwaavyzwfirxj" ]})))
  | SetupTotp _ _ _ _ => AccOk (Some (VObj {[ "qrcode" := VStr "data:image/png;base64,iVBORw0=" ]}))
  end.

Definition sample_page : Page :=
  {| page_api := sample_account_api; page_flash := []; page_calls := [] |}.

Definition sample_service : ServiceConfig :=
  {| allowJoin := true; domain := "example.com" |}.

Definition sample_service_closed : ServiceConfig :=
  {| allowJoin := false; domain := "example.com" |}.

Definition sample_site : SiteConfig :=
  {| totp_issuer := None; site_name := Some (VStr "Wild Duck Mail") |}.

Definition sample_joi_details (body : gmap string JsVal) : list (string * string) :=
  [("id", "id is not valid")].

Definition sample_joi_asp_create (body : gmap string JsVal) : AspCreateResult :=
  match body !! "description" with
  | Some (VStr description) => AspCreateValid (trim description)
  | _ => AspCreateInvalid
  end.

Definition sample_joi_create (body : gmap string JsVal) : CreateResult :=
  match body !! "name", body !! "username", body !! "password" with
  | Some (VStr name), Some (VStr username), Some (VStr password) =>
      CreateValid name username password body
  | _, _, _ => CreateInvalid body
  end.

Definition sample_roleBasedAddresses : list string := ["info"; "sales"; "support"].

Definition create_body (username : string) : gmap string JsVal :=
  <[ "name" := VStr "Alice" ]>
    (<[ "username" := VStr username ]>
       (<[ "password" := VStr "correct horse" ]>
          (<[ "password2" := VStr "correct horse" ]> {[ "_csrf" := VStr "c5rf" ]}))).

(** A request without a logged-in user. *)
Definition sample_anonymous_request (body : gmap string JsVal) : Request :=
  {| req_body := body; req_ip := "192.0.2.7"; req_user := None; req_csrf := "c5rf" |}.

(** Three application passwords, oldest first. *)
Definition sample_asps : list Asp :=
  [ {| asp_fields := {[ "description" := VStr "phone" ]}; asp_scopes := ["imap"; "smtp"] |};
    {| asp_fields := {[ "description" := VStr "laptop" ]}; asp_scopes := ["*"] |};
    {| asp_fields := {[ "description" := VStr "tablet" ]}; asp_scopes := ["pop3"] |} ].

(** An entry of the authentication log. *)
Definition sample_entry : gmap string JsVal :=
  <[ "action" := VStr "authentication" ]>
    (<[ "result" := VStr "fail" ]>
       (<[ "protocol" := VStr "API" ]> {[ "ip" := VStr "192.0.2.7" ]})).

Definition sample_details : list (string * string) :=
  [("username", "username is too short"); ("password", "password is required");
   ("username", "username must be alphanumeric")].

(** * Properties *)

(** ** Test vectors of the hash *)

Example sha256_abc :
  Hex.hex_of_bytes (SHA256.sha256 (Utf8.encode "abc"))
  = "ba7816bf8f01cfea414140de5dae2223b00361a396177a9cb410ff61f20015ad".
Proof. vm_compute. reflexivity. Qed.

Example hmac_fox :
  hmac_hex "key" "The quick brown fox jumps over the lazy dog"
  = "f7bc83f430538424b13298e6aa6fb143ef4d59a14946175997479dbc2d1a3cd8".
Proof. vm_compute. reflexivity. Qed.

(** Padding that spills into a second block, and a two-block message. *)
Example sha256_56_bytes :
  Hex.hex_of_bytes (SHA256.sha256 (Utf8.encode (replicate_char 56 "a")))
  = "b35439a4ac6f0948b6d6f9e3c6af0f5f590ce20f1bde7090ef7970686ec6738a".
Proof. vm_compute. reflexivity. Qed.

Example sha256_119_bytes :
  Hex.hex_of_bytes (SHA256.sha256 (Utf8.encode (replicate_char 119 "a")))
  = "31eba51c313a5c08226adf18d4a359cfdfd8d2e816b13f4af952f7ea6584dcfb".
Proof. vm_compute. reflexivity. Qed.

(** A key longer than a block, and a key with a character above 127 (the
    code unit 233 is two bytes in UTF-8). *)
Example hmac_long_key :
  hmac_hex (replicate_char 100 "k") "18bcfe56800::0b30557a9fc4"
  = "7c0772abf29243a40c99978eacbeb0a2b346bdf9e9692e6a12956077b708e641".
Proof. vm_compute. reflexivity. Qed.

Example hmac_latin1_key :
  hmac_hex ("caf" +:+ String (ascii_of_nat 233) ":u") "m"
  = "b0ea8145d3ba2a4ab1442d990795feff8ba7d0427b07a79db097515387d0c46d".
Proof. vm_compute. reflexivity. Qed.

(** ** Strings *)

Lemma str_app_nil_l (s : string) : EmptyString +:+ s = s.
Proof. reflexivity. Qed.

Lemma str_app_cons (c : ascii) (s t : string) : String c s +:+ t = String c (s +:+ t).
Proof. reflexivity. Qed.

Lemma str_app_nil_r (s : string) : s +:+ EmptyString = s.
Proof. induction s as [|c s IH]; [reflexivity|]. rewrite str_app_cons, IH. reflexivity. Qed.

Lemma str_app_assoc (s t u : string) : (s +:+ t) +:+ u = s +:+ t +:+ u.
Proof.
  induction s as [|c s IH]; [reflexivity|].
  rewrite !str_app_cons, IH. reflexivity.
Qed.

Lemma str_length_app (s t : string) :
  String.length (s +:+ t) = (String.length s + String.length t)%nat.
Proof.
  induction s as [|c s IH]; [reflexivity|].
  rewrite str_app_cons. simpl. rewrite IH. reflexivity.
Qed.

(** Two splittings of one string at the same position agree. *)
Lemma str_app_inv (s s' t t' : string) :
  String.length s = String.length s' ->
  s +:+ t = s' +:+ t' -> s = s' /\ t = t'.
Proof.
  revert s'. induction s as [|c s IH]; intros [|c' s'] Hlen Heq;
    simpl in Hlen; try discriminate.
  - split; [reflexivity | exact Heq].
  - rewrite !str_app_cons in Heq. injection Heq as -> Heq.
    destruct (IH s') as [-> ->]; [lia | exact Heq | split; reflexivity].
Qed.

Lemma all_chars_app (p : ascii -> bool) (s t : string) :
  Hex.all_chars p (s +:+ t) = Hex.all_chars p s && Hex.all_chars p t.
Proof.
  induction s as [|c s IH]; [reflexivity|].
  rewrite str_app_cons. simpl. rewrite IH. apply andb_assoc.
Qed.

Lemma all_chars_impl (p q : ascii -> bool) (s : string) :
  (forall c, p c = true -> q c = true) ->
  Hex.all_chars p s = true -> Hex.all_chars q s = true.
Proof.
  intros Hpq. induction s as [|c s IH]; [reflexivity|]. simpl.
  intros [Hc Hs]%andb_true_iff. rewrite (Hpq _ Hc), (IH Hs). reflexivity.
Qed.

Lemma set_char_length (i : nat) (c : ascii) (s : string) :
  String.length (Js.set_char i c s) = String.length s.
Proof.
  revert i. induction s as [|a s IH]; intros [|i]; simpl; try reflexivity.
  rewrite IH. reflexivity.
Qed.

(** Altering a character behind a prefix leaves the prefix alone. *)
Lemma set_char_app_r (i : nat) (c : ascii) (s t : string) :
  (String.length s <= i)%nat ->
  Js.set_char i c (s +:+ t) = s +:+ Js.set_char (i - String.length s) c t.
Proof.
  revert i. induction s as [|a s IH]; intros i Hi.
  - simpl. rewrite !str_app_nil_l. f_equal. lia.
  - simpl in Hi. destruct i as [|i]; [lia|].
    rewrite !str_app_cons. simpl. rewrite IH by lia. reflexivity.
Qed.

Lemma set_char_app_l (i : nat) (c : ascii) (s t : string) :
  (i < String.length s)%nat ->
  Js.set_char i c (s +:+ t) = Js.set_char i c s +:+ t.
Proof.
  revert i. induction s as [|a s IH]; intros i Hi; simpl in Hi; [lia|].
  destruct i as [|i]; rewrite !str_app_cons; simpl; [reflexivity|].
  rewrite IH by lia. reflexivity.
Qed.

Lemma count_char_app (c : ascii) (s t : string) :
  Js.count_char c (s +:+ t) = (Js.count_char c s + Js.count_char c t)%nat.
Proof.
  induction s as [|a s IH]; [reflexivity|].
  rewrite str_app_cons. simpl. rewrite IH. lia.
Qed.

(** ** Hexadecimal renderings *)

Lemma hex_digit_lower (d : N) : Hex.is_lower_hex (Hex.hex_digit d) = true.
Proof.
  destruct d as [|p]; [reflexivity|].
  do 4 (destruct p as [p|p|]; try reflexivity).
Qed.

Lemma digit_value_hex_digit (d : N) :
  (d < 16)%N -> Hex.digit_value (Hex.hex_digit d) = Some d.
Proof.
  intros Hd. destruct d as [|p]; [reflexivity|].
  do 4 (destruct p as [p|p|]; try reflexivity; try lia).
Qed.

Lemma lower_hex_no_colon (c : ascii) : Hex.is_lower_hex c = true -> no_colon c = true.
Proof.
  unfold no_colon. destruct (Ascii.eqb_spec c ":") as [->|]; [discriminate | reflexivity].
Qed.

Lemma to_hex_fuel_lower (fuel : nat) (n : N) :
  Hex.all_chars Hex.is_lower_hex (Hex.to_hex_fuel fuel n) = true.
Proof.
  revert n. induction fuel as [|f IH]; intros n; simpl; [reflexivity|].
  destruct (n <? 16)%N.
  - simpl. rewrite hex_digit_lower. reflexivity.
  - rewrite all_chars_app, IH. simpl. rewrite hex_digit_lower. reflexivity.
Qed.

Lemma toString16_lower (n : N) :
  Hex.all_chars Hex.is_lower_hex (Hex.toString16 n) = true.
Proof. apply to_hex_fuel_lower. Qed.

Lemma toString16_nonempty (n : N) : Hex.toString16 n <> EmptyString.
Proof.
  unfold Hex.toString16. simpl. destruct (n <? 16)%N; [discriminate|].
  intros H. apply (f_equal String.length) in H.
  rewrite str_length_app in H. simpl in H. lia.
Qed.

Lemma of_hex_acc_app (acc : N) (s t : string) :
  Hex.of_hex_acc acc (s +:+ t)
  = match Hex.of_hex_acc acc s with
    | Some a => Hex.of_hex_acc a t
    | None => None
    end.
Proof.
  revert acc. induction s as [|c s IH]; intros acc; [reflexivity|].
  rewrite str_app_cons. simpl. destruct (Hex.digit_value c); [apply IH | reflexivity].
Qed.

Lemma of_hex_acc_to_hex_fuel (fuel : nat) (n : N) :
  (n < 16 ^ N.of_nat fuel)%N ->
  exists k, forall acc,
      Hex.of_hex_acc acc (Hex.to_hex_fuel fuel n) = Some (acc * 16 ^ k + n)%N.
Proof.
  revert n. induction fuel as [|f IH]; intros n Hn.
  - exists 0%N. intros acc. simpl in *. f_equal; lia.
  - simpl Hex.to_hex_fuel. destruct (N.ltb_spec n 16) as [Hlt|Hge].
    + exists 1%N. intros acc. simpl. rewrite digit_value_hex_digit by exact Hlt.
      f_equal; lia.
    + destruct (IH (n / 16)%N) as [k Hk].
      { apply N.Div0.div_lt_upper_bound.
        replace (16 ^ N.of_nat (S f))%N with (16 * 16 ^ N.of_nat f)%N in Hn; [exact Hn|].
        rewrite Nat2N.inj_succ, N.pow_succ_r'. reflexivity. }
      exists (N.succ k). intros acc. rewrite of_hex_acc_app, Hk. simpl.
      rewrite digit_value_hex_digit by (apply N.mod_lt; lia).
      f_equal. rewrite N.pow_succ_r'.
      pose proof (N.div_mod n 16 ltac:(lia)). lia.
Qed.

(** Reading back [n.toString(16)] gives [n]. *)
Lemma of_hex_toString16 (n : N) : Hex.of_hex (Hex.toString16 n) = Some n.
Proof.
  pose proof (toString16_nonempty n) as Hne.
  unfold Hex.of_hex. destruct (Hex.toString16 n) eqn:E; [congruence|].
  rewrite <- E. unfold Hex.toString16.
  destruct (of_hex_acc_to_hex_fuel (S (N.to_nat (N.log2 n))) n) as [k Hk].
  - rewrite Nat2N.inj_succ, N2Nat.id.
    destruct n as [|p]; [reflexivity|].
    pose proof (N.log2_spec (N.pos p) ltac:(lia)) as [_ Hlt].
    eapply N.lt_le_trans; [exact Hlt|].
    apply N.pow_le_mono_l. lia.
  - rewrite Hk. f_equal.
Qed.

Lemma hex_of_bytes_lower (bs : list byte) :
  Hex.all_chars Hex.is_lower_hex (Hex.hex_of_bytes bs) = true.
Proof.
  induction bs as [|b bs IH]; [reflexivity|]. simpl.
  rewrite !hex_digit_lower, IH. reflexivity.
Qed.

Lemma hex_of_bytes_length (bs : list byte) :
  String.length (Hex.hex_of_bytes bs) = (2 * length bs)%nat.
Proof. induction bs as [|b bs IH]; [reflexivity|]. simpl. rewrite IH. lia. Qed.

(** Reading back [buf.toString('hex')] gives the buffer. *)
Lemma bytes_of_hex_of_bytes (bs : list byte) :
  Hex.bytes_of_hex (Hex.hex_of_bytes bs) = Some bs.
Proof.
  induction bs as [|b bs IH]; [reflexivity|].
  cbn [Hex.hex_of_bytes Hex.bytes_of_hex].
  pose proof (Byte.to_N_bounded b) as Hb.
  rewrite !digit_value_hex_digit, IH.
  - replace (Byte.to_N b / 16 * 16 + Byte.to_N b mod 16)%N with (Byte.to_N b)
      by (pose proof (N.div_mod (Byte.to_N b) 16 ltac:(lia)); lia).
    rewrite Byte.of_to_N. reflexivity.
  - apply N.mod_lt. lia.
  - apply N.Div0.div_lt_upper_bound. lia.
Qed.

(** ** Splitting and joining *)

Lemma starts_with_app (p s : string) :
  Js.starts_with p s = true -> exists r, s = p +:+ r.
Proof.
  revert s. induction p as [|a p IH]; intros s H.
  - exists s. reflexivity.
  - destruct s as [|b s]; [discriminate|]. simpl in H.
    apply andb_true_iff in H as [Hab Hps].
    apply Ascii.eqb_eq in Hab as ->.
    destruct (IH s Hps) as [r ->]. exists r. reflexivity.
Qed.

(** The characters of a matched separator are passed over. *)
Lemma split_go_skip (sep t cur r : string) :
  Js.split_go sep (String.length t) cur (t +:+ r) = Js.split_go sep 0 cur r.
Proof.
  induction t as [|c t IH]; [reflexivity|].
  rewrite str_app_cons. simpl. exact IH.
Qed.

Lemma split_go_nonempty (sep : string) (skip : nat) (cur s : string) :
  Js.split_go sep skip cur s <> [].
Proof.
  revert skip cur. induction s as [|c s IH]; intros skip cur; simpl; [discriminate|].
  destruct skip; [|apply IH].
  destruct (Js.starts_with sep (String c s)); [discriminate | apply IH].
Qed.

Lemma join_cons (sep x : string) (xs : list string) :
  xs <> [] -> Js.join sep (x :: xs) = x +:+ sep +:+ Js.join sep xs.
Proof. destruct xs; [congruence | reflexivity]. Qed.

Lemma join_split_go (sep : string) (n : nat) :
  sep <> EmptyString ->
  forall s cur, (String.length s <= n)%nat ->
    Js.join sep (Js.split_go sep 0 cur s) = cur +:+ s.
Proof.
  intros Hsep. induction n as [|n IH]; intros s cur Hlen.
  - destruct s; [|simpl in Hlen; lia]. simpl. rewrite str_app_nil_r. reflexivity.
  - destruct s as [|c s]; [simpl; rewrite str_app_nil_r; reflexivity|].
    cbn [Js.split_go]. destruct (Js.starts_with sep (String c s)) eqn:Hsw.
    + destruct (starts_with_app _ _ Hsw) as [r Hr].
      destruct sep as [|c0 sep']; [congruence|].
      rewrite str_app_cons in Hr. injection Hr as -> ->.
      replace (String.length (String c0 sep') - 1)%nat with (String.length sep')
        by (simpl; lia).
      rewrite split_go_skip, join_cons by apply split_go_nonempty.
      rewrite IH.
      * rewrite str_app_nil_l, <- str_app_cons. reflexivity.
      * simpl in Hlen. rewrite str_length_app in Hlen. lia.
    + rewrite IH by (simpl in Hlen; lia).
      rewrite str_app_assoc. reflexivity.
Qed.

(** [s.split(sep).join(sep)] is [s]. *)
Lemma join_split (sep s : string) :
  sep <> EmptyString -> Js.join sep (Js.split sep s) = s.
Proof.
  intros Hsep. unfold Js.split. destruct sep as [|c sep']; [congruence|].
  rewrite (join_split_go _ (String.length s)) by (congruence || lia).
  reflexivity.
Qed.

(** A part without colons in front of a separator is split off whole. *)
Lemma split_go_part (a cur rest : string) :
  Hex.all_chars no_colon a = true ->
  Js.split_go "::" 0 cur (a +:+ "::" +:+ rest)
  = (cur +:+ a) :: Js.split_go "::" 0 EmptyString rest.
Proof.
  revert cur. induction a as [|c a IH]; intros cur Ha.
  - rewrite str_app_nil_l, str_app_nil_r. reflexivity.
  - simpl in Ha. apply andb_true_iff in Ha as [Hc Ha].
    rewrite str_app_cons. cbn [Js.split_go Js.starts_with].
    unfold no_colon in Hc. rewrite Ascii.eqb_sym in Hc.
    apply negb_true_iff in Hc. rewrite Hc. cbn [andb].
    rewrite IH by exact Ha. rewrite str_app_assoc. reflexivity.
Qed.

Lemma split_go_last (a cur : string) :
  Hex.all_chars no_colon a = true ->
  Js.split_go "::" 0 cur a = [cur +:+ a].
Proof.
  revert cur. induction a as [|c a IH]; intros cur Ha.
  - rewrite str_app_nil_r. reflexivity.
  - simpl in Ha. apply andb_true_iff in Ha as [Hc Ha].
    cbn [Js.split_go Js.starts_with].
    unfold no_colon in Hc. rewrite Ascii.eqb_sym in Hc.
    apply negb_true_iff in Hc. rewrite Hc. cbn [andb].
    rewrite IH by exact Ha. rewrite str_app_assoc. reflexivity.
Qed.

(** Three colon-free parts joined with ["::"] split back into themselves. *)
Lemma split_three (a b c : string) :
  Hex.all_chars no_colon a = true ->
  Hex.all_chars no_colon b = true ->
  Hex.all_chars no_colon c = true ->
  Js.split "::" (a +:+ "::" +:+ b +:+ "::" +:+ c) = [a; b; c].
Proof.
  intros Ha Hb Hc. unfold Js.split.
  rewrite split_go_part, split_go_part, split_go_last by assumption.
  reflexivity.
Qed.

(** ** The keyed hash *)

Lemma fold_compress_length (bl : list (list Z)) (h : list Z) :
  length h = 8%nat -> length (fold_left SHA256.compress bl h) = 8%nat.
Proof.
  revert h. induction bl as [|b bl IH]; intros h Hh; [exact Hh|].
  simpl. apply IH. reflexivity.
Qed.

Lemma be_bytes_length (n : nat) (z : Z) : length (SHA256.be_bytes n z) = n.
Proof. induction n as [|n IH]; [reflexivity|]. simpl. rewrite IH. reflexivity. Qed.

Lemma sha256_length (msg : list byte) : length (SHA256.sha256 msg) = 32%nat.
Proof.
  unfold SHA256.sha256.
  pose proof (fold_compress_length
                (SHA256.blocks (length (SHA256.words (SHA256.pad msg)))
                               (SHA256.words (SHA256.pad msg)))
                SHA256.H_init eq_refl) as Hlen.
  fold (SHA256.digest_words msg) in Hlen.
  destruct (SHA256.digest_words msg) as [|a [|b [|c [|d [|e [|f [|g [|h [|? ?]]]]]]]]];
    try discriminate.
  reflexivity.
Qed.

(** A digest in hexadecimal has 64 characters, all lowercase hexadecimal. *)
Lemma hmac_hex_length (key msg : string) : String.length (hmac_hex key msg) = 64%nat.
Proof.
  unfold hmac_hex, HMAC.hmac_sha256.
  rewrite hex_of_bytes_length, sha256_length. reflexivity.
Qed.

Lemma hmac_hex_lower (key msg : string) :
  Hex.all_chars Hex.is_lower_hex (hmac_hex key msg) = true.
Proof. apply hex_of_bytes_lower. Qed.

(** RFC 2104 pads a short key with zero bytes, so a key and the key followed
    by a NUL character give the same hash. *)
Lemma block_key_zero (key : list byte) :
  (length key < HMAC.block_size)%nat ->
  HMAC.block_key (key ++ [x00]) = HMAC.block_key key.
Proof.
  unfold HMAC.block_key, HMAC.block_size. intros Hlen.
  rewrite length_app. simpl length.
  destruct (Nat.ltb_spec 64 (length key + 1)); [lia|].
  destruct (Nat.ltb_spec 64 (length key)); [lia|].
  cbv zeta. rewrite length_app, <- app_assoc. simpl length. f_equal.
  replace (64 - length key)%nat with (S (64 - (length key + 1))) by lia.
  reflexivity.
Qed.

Lemma utf8_encode_app (s t : string) :
  Utf8.encode (s +:+ t) = (Utf8.encode s ++ Utf8.encode t)%list.
Proof.
  induction s as [|c s IH]; [reflexivity|].
  rewrite str_app_cons. simpl. rewrite IH, app_assoc. reflexivity.
Qed.

Lemma hmac_hex_key_nul (key msg : string) :
  (length (Utf8.encode key) < HMAC.block_size)%nat ->
  hmac_hex (key +:+ nul) msg = hmac_hex key msg.
Proof.
  intros Hlen. unfold hmac_hex, HMAC.hmac_sha256.
  rewrite utf8_encode_app.
  change (Utf8.encode nul) with [x00].
  rewrite block_key_zero by exact Hlen. reflexivity.
Qed.

(** ** The remember-device token *)

Section TokenFacts.

Variable cfg : Config.

Lemma generate2faRemeberToken_eq (user : string) (env : Env) :
  fst (generate2faRemeberToken cfg user env)
  = message_of env +:+ "::" +:+ hmac_hex (signing_key cfg user) (message_of env).
Proof. reflexivity. Qed.

Lemma hex_count_colon (s : string) :
  Hex.all_chars Hex.is_lower_hex s = true -> Js.count_char ":" s = 0%nat.
Proof.
  induction s as [|c s IH]; [reflexivity|]. simpl.
  intros [Hc Hs]%andb_true_iff. rewrite (IH Hs).
  apply lower_hex_no_colon in Hc. unfold no_colon in Hc.
  apply negb_true_iff in Hc. rewrite Hc. reflexivity.
Qed.

Lemma hex_no_colon (s : string) :
  Hex.all_chars Hex.is_lower_hex s = true -> Hex.all_chars no_colon s = true.
Proof. apply all_chars_impl, lower_hex_no_colon. Qed.

(** Splitting a minted token gives back its three parts. *)
Lemma split_token (user : string) (env : Env) :
  Js.split "::" (fst (generate2faRemeberToken cfg user env))
  = [Hex.toString16 (env_now env); Hex.hex_of_bytes (nonce_of env);
     hmac_hex (signing_key cfg user) (message_of env)].
Proof.
  rewrite generate2faRemeberToken_eq. unfold message_of.
  rewrite str_app_assoc.
  apply split_three; apply hex_no_colon;
    [apply toString16_lower | apply hex_of_bytes_lower | apply hmac_hex_lower].
Qed.

(** What [verify] accepts: a signed string with a separator inside,
    followed by the separator and the signature of that string. *)
Lemma verify_true_inv (token uname user : string) (maxAge now : Z) :
  verify cfg token uname user maxAge now = true ->
  exists m, token = m +:+ "::" +:+ hmac_hex (signing_key cfg user) m
            /\ (2 <= Js.count_char ":" m)%nat.
Proof.
  unfold verify. intros H.
  pose proof (join_split "::" token ltac:(discriminate)) as Hjoin.
  destruct (Js.split "::" token) as [|a [|b [|c [|? ?]]]]; try discriminate.
  destruct (Hex.of_hex a); [|discriminate].
  apply andb_true_iff in H as [Hsig _]. apply String.eqb_eq in Hsig.
  exists (a +:+ "::" +:+ b). split.
  - rewrite <- Hjoin, Hsig. simpl Js.join. fold (signing_key cfg user).
    rewrite !str_app_assoc. reflexivity.
  - rewrite !count_char_app. simpl. lia.
Qed.

(** Within the expiry window, a minted token is valid for an account
    exactly when the account's key signs the token's message alike. *)
Lemma verify_minted (user uname user' : string) (env : Env) (maxAge now : Z) :
  now - Z.of_N (env_now env) <= maxAge ->
  verify cfg (fst (generate2faRemeberToken cfg user env)) uname user' maxAge now
  = String.eqb (hmac_hex (signing_key cfg user) (message_of env))
               (hmac_hex (signing_key cfg user') (message_of env)).
Proof.
  intros Hage. unfold verify. rewrite split_token, of_hex_toString16.
  destruct (Z.ltb_spec maxAge (now - Z.of_N (env_now env))); [lia|].
  rewrite andb_true_r. reflexivity.
Qed.

(** An altered token that still verifies has its signed string altered,
    into one with the signature of the original. *)
Lemma verify_altered_inv (user uname : string) (env : Env) (maxAge now : Z)
      (i : nat) (c : ascii) :
  let token := fst (generate2faRemeberToken cfg user env) in
  Js.set_char i c token <> token ->
  verify cfg (Js.set_char i c token) uname user maxAge now = true ->
  (i < String.length (message_of env))%nat
  /\ (2 <= Js.count_char ":" (Js.set_char i c (message_of env)))%nat
  /\ hmac_hex (signing_key cfg user) (Js.set_char i c (message_of env))
     = hmac_hex (signing_key cfg user) (message_of env).
Proof.
  intros token Hneq Hver. subst token.
  rewrite generate2faRemeberToken_eq in *.
  set (msg := message_of env) in *. set (key := signing_key cfg user) in *.
  destruct (verify_true_inv _ _ _ _ _ Hver) as (m & Hm & Hcount).
  assert (Hlen : String.length m = String.length msg).
  { apply (f_equal String.length) in Hm.
    rewrite set_char_length, !str_length_app, !hmac_hex_length in Hm. lia. }
  destruct (Nat.lt_ge_cases i (String.length msg)) as [Hi|Hi].
  - rewrite set_char_app_l in Hm by exact Hi.
    apply str_app_inv in Hm as [Hm1 Hm2]; [|rewrite set_char_length; lia].
    apply str_app_inv in Hm2 as [_ Hsig]; [|reflexivity].
    subst m. repeat split; [exact Hi | exact Hcount | symmetry; exact Hsig].
  - exfalso. apply Hneq.
    rewrite set_char_app_r in Hm by exact Hi.
    apply str_app_inv in Hm as [<- Hrest]; [|lia].
    rewrite set_char_app_r by exact Hi. rewrite Hrest. reflexivity.
Qed.

(** Whenever the account's key is shorter than a block of the hash, the
    minted token verifies for the account identity followed by a NUL
    character. *)
Lemma verify_nul_suffix (user uname : string) (env : Env) (maxAge now : Z) :
  (length (Utf8.encode (signing_key cfg user)) < HMAC.block_size)%nat ->
  now - Z.of_N (env_now env) <= maxAge ->
  verify cfg (fst (generate2faRemeberToken cfg user env)) uname (user +:+ nul) maxAge now
  = true.
Proof.
  intros Hshort Hage. rewrite verify_minted by exact Hage.
  replace (signing_key cfg (user +:+ nul)) with (signing_key cfg user +:+ nul)
    by (unfold signing_key; rewrite !str_app_assoc; reflexivity).
  rewrite hmac_hex_key_nul by exact Hshort. apply String.eqb_refl.
Qed.

End TokenFacts.

Example sample_token :
  fst (generate2faRemeberToken sample_cfg sample_user sample_env)
  = "18bcfe56800::0b30557a9fc4::"
    +:+ "d3fd1b5ad29fba79fa594404796ec3b47e49fdfdde698c90600bb0ece223313c".
Proof. vm_compute. reflexivity. Qed.

(** C2. For every account id and configured secret, the token minted by
    [generate2faRemeberToken] is [timestampHex::nonceHex::signature]:
    [nonceHex] is the hexadecimal rendering of six bytes drawn from the
    random source (and reads back as those bytes), [timestampHex] is the
    hexadecimal rendering of the current time in milliseconds (and reads back
    as that time), and [signature] is the HMAC-SHA256, in hexadecimal, of
    [timestampHex::nonceHex] under the key [secret:accountId]. *)
Theorem generate2faRemeberToken_shape (cfg : Config) (user : string) (env : Env) :
  let nonce := map (env_entropy env) (seq 0 6) in
  let timestampHex := Hex.toString16 (env_now env) in
  let nonceHex := Hex.hex_of_bytes nonce in
  let signature :=
    Hex.hex_of_bytes
      (HMAC.hmac_sha256 (Utf8.encode (totp_secret cfg +:+ ":" +:+ user))
                        (Utf8.encode (timestampHex +:+ "::" +:+ nonceHex))) in
  fst (generate2faRemeberToken cfg user env)
  = timestampHex +:+ "::" +:+ nonceHex +:+ "::" +:+ signature
  /\ (6 <= length nonce)%nat
  /\ Hex.bytes_of_hex nonceHex = Some nonce
  /\ Hex.of_hex timestampHex = Some (env_now env)
  /\ (forall i, env_entropy (snd (generate2faRemeberToken cfg user env)) i
                = env_entropy env (6 + i)%nat).
Proof.
  cbv zeta. repeat split.
  - rewrite generate2faRemeberToken_eq. unfold message_of, nonce_of.
    rewrite str_app_assoc. reflexivity.
  - rewrite length_map, length_seq. lia.
  - apply bytes_of_hex_of_bytes.
  - apply of_hex_toString16.
Qed.

(** C10. For every account id, secret, timestamp and nonce, the minted token
    splits on ["::"] into exactly three parts, none of them empty, each made
    of lowercase hexadecimal characters only, and the third part is the
    HMAC-SHA256 of the first two parts rejoined with ["::"], under the key
    [secret:accountId]. *)
Theorem generate2faRemeberToken_split (cfg : Config) (user : string) (env : Env) :
  exists timestampHex nonceHex signature,
    Js.split "::" (fst (generate2faRemeberToken cfg user env))
    = [timestampHex; nonceHex; signature]
    /\ timestampHex <> EmptyString
    /\ nonceHex <> EmptyString
    /\ signature <> EmptyString
    /\ Hex.all_chars Hex.is_lower_hex timestampHex = true
    /\ Hex.all_chars Hex.is_lower_hex nonceHex = true
    /\ Hex.all_chars Hex.is_lower_hex signature = true
    /\ signature
       = hmac_hex (totp_secret cfg +:+ ":" +:+ user)
                  (Js.join "::" [timestampHex; nonceHex]).
Proof.
  eexists _, _, _. split; [apply split_token|].
  repeat split.
  - apply toString16_nonempty.
  - intros H. apply (f_equal String.length) in H.
    rewrite hex_of_bytes_length in H. discriminate H.
  - intros H. apply (f_equal String.length) in H.
    rewrite hmac_hex_length in H. discriminate H.
  - apply toString16_lower.
  - apply hex_of_bytes_lower.
  - apply hmac_hex_lower.
Qed.




(** ** The routes *)

Lemma events_since_app (env env' : Env) (evs : list Event) :
  env_log env' = env_log env ++ evs -> events_since env env' = evs.
Proof. intros H. unfold events_since. rewrite H. apply drop_app_length. Qed.

Lemma events_since_refl (env : Env) : events_since env env = [].
Proof. apply events_since_app. rewrite app_nil_r. reflexivity. Qed.

(** C6. For every security-key route ([/start-u2f], [/check-u2f],
    [/setup-u2f], [/enable-u2f], [/disable-u2f], [/enable-u2f/verify]), when
    [config.u2f.enabled] is false the handler fails at once with the error
    "U2F support is disabled" and leaves the environment as it was: no call
    to the API client, nothing minted, the session untouched. *)
Theorem u2f_disabled_fails_first
        (cfg : Config) (convert_number : JsVal -> option JsVal)
        (convert_boolean : list JsVal -> list JsVal -> JsVal -> option bool)
        (joi_message : Joi.Schema -> gmap string JsVal -> string)
        (r : Route) (req : Request) (env : Env) :
  is_u2f_route r = true ->
  u2f_enabled cfg = false ->
  let (resp, env') := handler cfg convert_number convert_boolean joi_message r req env in
  env' = env
  /\ events_since env env' = []
  /\ is_error resp = true
  /\ (resp = JsonError u2f_disabled None \/ resp = Next u2f_disabled (Some 404)).
Proof.
  intros Hr Hoff.
  destruct r; try discriminate Hr; simpl;
    unfold start_u2f, check_u2f, enable_u2f, setup_u2f, disable_u2f, enable_u2f_verify;
    rewrite Hoff; simpl;
    (repeat split; [apply events_since_refl | auto]).
Qed.

Ltac unfold_monad :=
  unfold remember_value, generate2faRemeberToken, call_api, record, set_require2fa,
    flash, session_username, date_now, random_bytes;
  cbv [mbind mret M_bind M_ret]; cbn beta iota.

(** Case analysis on the logged events and on what the API answered. *)
Ltac route_auto :=
  repeat match goal with
         | |- _ /\ _ => split
         | |- forall _, _ => intro
         | |- ~ _ => intro
         | H : In _ (_ :: _) |- _ => destruct H as [H|H]
         | H : In _ [] |- _ => destruct H
         | H : EvApi _ = EvApi _ |- _ => injection H as H; subst
         | H : EvMint _ = EvMint _ |- _ => injection H as H; subst
         | H : EvMint _ = EvApi _ |- _ => discriminate H
         | H : EvApi _ = EvMint _ |- _ => discriminate H
         | H : ?x <> ?x |- _ => contradiction H; reflexivity
         | Ha : env_api ?e ?rq = _, H : totp_verified (env_api ?e ?rq) = _ |- _ =>
             rewrite Ha in H; cbn in H
         | Ha : env_api ?e ?rq = _, H : u2f_verified (env_api ?e ?rq) = _ |- _ =>
             rewrite Ha in H; cbn in H
         | Ha : env_api ?e ?rq = _ |- context [env_api ?e ?rq] => rewrite Ha; cbn
         end;
  try congruence; try reflexivity; try discriminate;
  try (eexists; split; [left; reflexivity | route_auto]).

Ltac solve_events :=
  unfold events_since;
  cbn [fst snd env_log env_session env_api env_now env_entropy env_flash require2fa sess_username];
  rewrite <- ?app_assoc, ?app_nil_r;
  rewrite ?drop_app_length, ?drop_all; cbn [app].

(** C4. For every request to [/check-totp]: when the provider was asked and
    did not confirm the code (an error, or a result that is not truthy), the
    response is a failure and the session is left as it was; the session
    changes only when the provider confirmed the code, and then
    [require2fa] is false. *)
Theorem check_totp_clears_on_success_only
        (cfg : Config) (convert_number : JsVal -> option JsVal)
        (convert_boolean : list JsVal -> list JsVal -> JsVal -> option bool)
        (joi_message : Joi.Schema -> gmap string JsVal -> string)
        (req : Request) (env : Env) :
  let (resp, env') := check_totp cfg convert_number convert_boolean joi_message req env in
  (forall rq, In (EvApi rq) (events_since env env') ->
              totp_verified (env_api env rq) = false ->
              is_error resp = true /\ env_session env' = env_session env)
  /\ (forall rq, In (EvApi rq) (events_since env env') ->
                 totp_verified (env_api env rq) = true ->
                 is_error resp = false /\ require2fa (env_session env') = false)
  /\ (env_session env' <> env_session env ->
      exists rq, In (EvApi rq) (events_since env env')
                 /\ totp_verified (env_api env rq) = true)
  /\ (is_error resp = true -> env_session env' = env_session env).
Proof.
  unfold check_totp.
  destruct (validate _ _ _ _) as [value|]; [|unfold_monad; solve_events; route_auto].
  destruct (req_user req) as [uid|]; [|unfold_monad; solve_events; route_auto].
  unfold_monad.
  destruct (env_api env _) as [err|result] eqn:Hapi.
  - solve_events. route_auto.
  - destruct (truthy_opt result) eqn:Hres; cbn [negb].
    + destruct (truthy_opt (value !! "remember2fa")); solve_events; route_auto.
    + solve_events. route_auto.
Qed.

(** ** Validation *)

Section ValidationFacts.

Variable convert_number : JsVal -> option JsVal.
Variable convert_boolean : list JsVal -> list JsVal -> JsVal -> option bool.

Abbreviation joi_validate := (Joi.validate convert_number convert_boolean).
Abbreviation joi_key := (Joi.validate_key convert_number convert_boolean).

(** The validated value has every key of the input. *)
Lemma foldr_validate_keys (schema : Joi.Schema) (body value : gmap string JsVal) :
  foldr (joi_key body) (Some body) schema = Some value ->
  forall k, is_Some (body !! k) -> is_Some (value !! k).
Proof.
  revert value. induction schema as [|[name key] schema IH]; intros value H k Hk.
  - injection H as <-. exact Hk.
  - simpl in H. destruct (foldr _ _ schema) as [acc|]; [|discriminate].
    specialize (IH acc eq_refl k Hk). simpl in H.
    destruct (body !! name) as [v|].
    + destruct (Joi.check _ _ _ v) as [v'|]; [|discriminate]. simpl in H.
      injection H as <-. rewrite lookup_insert_is_Some. 
      destruct (decide (name = k)); [left; assumption | right; split; assumption].
    + destruct (Joi.key_required key); [discriminate|].
      destruct (Joi.key_default key); injection H as <-; [|exact IH].
      rewrite lookup_insert_is_Some.
      destruct (decide (name = k)); [left; assumption | right; split; assumption].
Qed.

Lemma validate_keys (schema : Joi.Schema) (body value : gmap string JsVal) :
  joi_validate schema body = Some value ->
  forall k, is_Some (body !! k) -> is_Some (value !! k).
Proof.
  unfold Joi.validate. destruct (bool_decide _); [|discriminate].
  apply foldr_validate_keys.
Qed.

(** A schema that starts with the TOTP code accepts six-digit codes only,
    and hands the code on as it came. *)
Lemma validate_token (rest : Joi.Schema) (body value : gmap string JsVal) :
  joi_validate (("token", token_key) :: rest) body = Some value ->
  six_digits (body !! "token") = true /\ value !! "token" = body !! "token".
Proof.
  unfold Joi.validate. destruct (bool_decide _); [|discriminate].
  simpl. destruct (foldr _ _ rest) as [acc|]; [|discriminate]. simpl.
  destruct (body !! "token") as [v|]; [|discriminate]. simpl.
  destruct v as [| | |s| |]; try discriminate. simpl.
  unfold Joi.numbers.
  destruct (String.eqb s EmptyString); [discriminate|]. simpl.
  destruct (Nat.eqb (String.length s) 6); [|discriminate]. simpl.
  destruct (Hex.all_chars Joi.is_digit s); [|discriminate]. simpl.
  intros [= <-]. rewrite lookup_insert_eq. split; reflexivity.
Qed.

End ValidationFacts.

(** ** Copying request fields *)

Lemma copy_fields_spec (names : list string) (source body init : gmap string JsVal)
      (k : string) :
  (k ∈ names /\ is_Some (source !! k) /\ is_Some (body !! k) ->
   copy_fields names source body init !! k = body !! k)
  /\ (~ (k ∈ names /\ is_Some (source !! k) /\ is_Some (body !! k)) ->
      copy_fields names source body init !! k = init !! k).
Proof.
  unfold copy_fields.
  apply (map_fold_weak_ind
           (fun (r m : gmap string JsVal) =>
              (k ∈ names /\ is_Some (m !! k) /\ is_Some (body !! k) -> r !! k = body !! k)
              /\ (~ (k ∈ names /\ is_Some (m !! k) /\ is_Some (body !! k)) ->
                  r !! k = init !! k))).
  - split; [|reflexivity].
    intros (_ & H & _). rewrite lookup_empty in H. destruct H; discriminate.
  - intros i x m r Hi [IHyes IHno].
    destruct (decide (i = k)) as [->|Hne].
    + assert (Hr : r !! k = init !! k).
      { apply IHno. intros (_ & H & _). rewrite Hi in H. destruct H; discriminate. }
      rewrite lookup_insert_eq. split.
      * intros (Hin & _ & [v Hb]).
        rewrite bool_decide_eq_true_2 by exact Hin.
        rewrite Hb. apply lookup_insert_eq.
      * intros Hnot. destruct (bool_decide (k ∈ names)) eqn:Hin; [|exact Hr].
        apply bool_decide_eq_true in Hin.
        destruct (body !! k) as [v|] eqn:Hb; [|exact Hr].
        contradiction Hnot. repeat split; eauto.
    + rewrite (lookup_insert_ne m i k x) by exact Hne.
      destruct (bool_decide (i ∈ names)); [|split; assumption].
      destruct (body !! i); [|split; assumption].
      rewrite lookup_insert_ne by exact Hne. split; assumption.
Qed.

Lemma copy_fields_lookup (names : list string) (source body init : gmap string JsVal)
      (k : string) :
  copy_fields names source body init !! k
  = if bool_decide (k ∈ names /\ is_Some (source !! k) /\ is_Some (body !! k))
    then body !! k else init !! k.
Proof.
  destruct (copy_fields_spec names source body init k) as [Hyes Hno].
  case_bool_decide; [apply Hyes | apply Hno]; assumption.
Qed.

(** With every key of the body among the keys of the source, and the
    request data starting from the client address alone, the loop keeps the
    named fields of the body and nothing else. *)
Lemma copy_fields_filter (names : list string) (source body : gmap string JsVal)
      (ip : string) :
  "ip" ∉ names ->
  (forall k, is_Some (body !! k) -> is_Some (source !! k)) ->
  copy_fields names source body {[ "ip" := VStr ip ]}
  = <[ "ip" := VStr ip ]> (filter (fun kv => kv.1 ∈ names) body).
Proof.
  intros Hip Hkeys. apply map_eq. intros k.
  rewrite copy_fields_lookup.
  destruct (decide (k = "ip")) as [->|Hk].
  - rewrite lookup_insert_eq, bool_decide_eq_false_2 by tauto.
    apply lookup_singleton_eq.
  - rewrite lookup_insert_ne, lookup_singleton_ne by congruence.
    rewrite map_lookup_filter.
    destruct (body !! k) as [v|] eqn:Hb; simpl.
    + destruct (decide (k ∈ names)) as [Hin|Hin].
      * rewrite bool_decide_eq_true_2 by (repeat split; eauto).
        rewrite option_guard_True by exact Hin. reflexivity.
      * rewrite bool_decide_eq_false_2 by tauto.
        rewrite option_guard_False by exact Hin. reflexivity.
    + rewrite bool_decide_eq_false_2; [reflexivity|].
      intros (_ & _ & H). destruct H; discriminate.
Qed.

(** ** The verification routes *)

(** C5. On [/check-totp] and [/check-u2f] a remember-token is minted only
    when the request passed validation with a truthy [remember2fa], the
    provider confirmed the factor, and the response is the success reply
    that carries the token; a run that ends in a failure outcome mints
    nothing. *)
Theorem mint_only_after_verification
        (cfg : Config) (convert_number : JsVal -> option JsVal)
        (convert_boolean : list JsVal -> list JsVal -> JsVal -> option bool)
        (joi_message : Joi.Schema -> gmap string JsVal -> string)
        (r : Route) (req : Request) (env : Env) :
  is_check_route r = true ->
  let (resp, env') := handler cfg convert_number convert_boolean joi_message r req env in
  (forall u,
      In (EvMint u) (events_since env env') ->
      is_error resp = false
      /\ req_user req = Some u
      /\ (exists value,
             Joi.validate convert_number convert_boolean (check_schema r)
                          (delete "_csrf" (req_body req)) = Some value
             /\ truthy_opt (value !! "remember2fa") = true)
      /\ (exists rq, In (EvApi rq) (events_since env env')
                     /\ verified r (env_api env rq) = true)
      /\ (exists data remember,
             resp = Json (Some (VObj data))
             /\ data !! "remember2fa" = Some remember
             /\ prop remember "value"
                = Some (VStr (fst (generate2faRemeberToken cfg u env)))))
  /\ (is_error resp = true -> forall u, ~ In (EvMint u) (events_since env env')).
Proof.
  intros Hr. destruct r; try discriminate Hr; cbn [handler check_schema verified].
  - (* /check-totp *)
    unfold check_totp, validate.
    destruct (Joi.validate _ _ _ _) as [value|] eqn:Hval;
      [|unfold_monad; solve_events; route_auto].
    destruct (req_user req) as [uid|]; [|unfold_monad; solve_events; route_auto].
    unfold_monad.
    destruct (env_api env _) as [err|result] eqn:Hapi; [solve_events; route_auto|].
    destruct (truthy_opt result) eqn:Hres; cbn [negb]; [|solve_events; route_auto].
    destruct (truthy_opt (value !! "remember2fa")) eqn:Hrem; solve_events; route_auto.
    + exists value. split; [reflexivity | assumption].
    + eexists _, _. split; [reflexivity|]. rewrite lookup_insert_eq.
      split; [reflexivity|]. unfold prop.
      destruct (sess_username (env_session env));
        rewrite ?lookup_insert_ne by discriminate;
        rewrite ?lookup_insert_eq, ?lookup_singleton_eq; reflexivity.
  - (* /check-u2f *)
    unfold check_u2f, validate.
    destruct (u2f_enabled cfg); cbn [negb]; [|unfold_monad; solve_events; route_auto].
    destruct (Joi.validate _ _ _ _) as [value|] eqn:Hval;
      [|unfold_monad; solve_events; route_auto].
    destruct (req_user req) as [uid|]; [|unfold_monad; solve_events; route_auto].
    unfold_monad.
    destruct (env_api env _) as [err|data] eqn:Hapi; [solve_events; route_auto|].
    destruct data as [[| | | | |fields]|]; try (solve_events; route_auto).
    destruct (truthy_opt (fields !! "success")) eqn:Hres; cbn [negb];
      [|solve_events; route_auto].
    destruct (truthy_opt (value !! "remember2fa")) eqn:Hrem; solve_events; route_auto.
    + exists value. split; [reflexivity | assumption].
    + eexists _, _. split; [reflexivity|].
      rewrite lookup_insert_ne by discriminate. rewrite lookup_insert_eq.
      split; [reflexivity|]. unfold prop.
      destruct (sess_username (env_session env));
        rewrite ?lookup_insert_ne by discriminate;
        rewrite ?lookup_insert_eq, ?lookup_singleton_eq; reflexivity.
Qed.

(** C8. On [/check-totp] and [/verify-totp] the provider is called with the
    [token] of the body only when it is a string of exactly six ASCII
    digits; for a token of any other shape, or none, the response is the
    validation error and nothing else happens: no call to the provider, the
    environment as it was. *)
Theorem totp_code_checked_before_provider
        (cfg : Config) (convert_number : JsVal -> option JsVal)
        (convert_boolean : list JsVal -> list JsVal -> JsVal -> option bool)
        (joi_message : Joi.Schema -> gmap string JsVal -> string)
        (r : Route) (req : Request) (env : Env) :
  is_totp_route r = true ->
  let (resp, env') := handler cfg convert_number convert_boolean joi_message r req env in
  (forall rq,
      In (EvApi rq) (events_since env env') ->
      six_digits (req_body req !! "token") = true
      /\ exists uid, rq = totp_call r uid (req_body req !! "token") (req_ip req))
  /\ (six_digits (req_body req !! "token") = false ->
      resp = JsonError (joi_message (totp_schema r) (delete "_csrf" (req_body req))) None
      /\ env' = env
      /\ events_since env env' = []).
Proof.
  intros Hr.
  assert (Htok : delete "_csrf" (req_body req) !! "token" = req_body req !! "token")
    by (apply lookup_delete_ne; discriminate).
  destruct r; try discriminate Hr; cbn [handler totp_schema totp_call].
  - (* /verify-totp *)
    unfold verify_totp, validate.
    destruct (Joi.validate _ _ _ _) as [value|] eqn:Hval.
    + apply validate_token in Hval as [Hsix Hsame]. rewrite Htok in Hsix, Hsame.
      rewrite Hsame.
      destruct (req_user req) as [uid|]; [|unfold_monad; solve_events; route_auto].
      unfold_monad. destruct (env_api env _) as [err|data] eqn:Hapi;
        solve_events; route_auto; eexists; reflexivity.
    + unfold_monad. solve_events. route_auto.
  - (* /check-totp *)
    unfold check_totp, validate.
    destruct (Joi.validate _ _ _ _) as [value|] eqn:Hval.
    + apply validate_token in Hval as [Hsix Hsame]. rewrite Htok in Hsix, Hsame.
      rewrite Hsame.
      destruct (req_user req) as [uid|]; [|unfold_monad; solve_events; route_auto].
      unfold_monad. destruct (env_api env _) as [err|result] eqn:Hapi;
        [solve_events; route_auto; eexists; reflexivity|].
      destruct (truthy_opt result); cbn [negb];
        [|solve_events; route_auto; eexists; reflexivity].
      destruct (truthy_opt (value !! "remember2fa"));
        solve_events; route_auto; eexists; reflexivity.
    + unfold_monad. solve_events. route_auto.
Qed.

(** ** The security-key routes *)

Lemma filter_delete_csrf (names : list string) (body : gmap string JsVal) :
  "_csrf" ∉ names ->
  filter (fun kv => kv.1 ∈ names) (delete "_csrf" body)
  = filter (fun kv => kv.1 ∈ names) body.
Proof.
  intros Hn. apply map_eq. intros k. rewrite !map_lookup_filter.
  destruct (decide (k = "_csrf")) as [->|Hk].
  - rewrite lookup_delete_eq. simpl.
    destruct (body !! "_csrf"); [|reflexivity]. simpl.
    rewrite option_guard_False by exact Hn. reflexivity.
  - rewrite lookup_delete_ne by congruence. reflexivity.
Qed.

Lemma check_u2f_fields_kept (k : string) :
  k ∈ check_u2f_fields -> k ∉ check_u2f_dropped.
Proof.
  unfold check_u2f_fields, check_u2f_dropped. intros Hk Hd.
  repeat (apply elem_of_cons in Hk as [->|Hk]);
    try (apply elem_of_nil in Hk; exact Hk);
    repeat (apply elem_of_cons in Hd as [Hd|Hd]; [discriminate Hd|]);
    apply elem_of_nil in Hd; exact Hd.
Qed.

(** Bodies that agree outside the dropped fields agree on the forwarded
    ones. *)
Lemma forwarded_fields_agree (body body' : gmap string JsVal) :
  filter (fun kv => kv.1 ∉ check_u2f_dropped) body'
  = filter (fun kv => kv.1 ∉ check_u2f_dropped) body ->
  filter (fun kv => kv.1 ∈ check_u2f_fields) body'
  = filter (fun kv => kv.1 ∈ check_u2f_fields) body.
Proof.
  intros H. apply map_eq. intros k. rewrite !map_lookup_filter.
  destruct (decide (k ∈ check_u2f_fields)) as [Hin|Hin].
  - apply (f_equal (fun m => m !! k)) in H. rewrite !map_lookup_filter in H.
    pose proof (check_u2f_fields_kept k Hin) as Hkept.
    destruct (body' !! k), (body !! k); simpl in *;
      rewrite ?option_guard_True in * by assumption; simpl in *; congruence.
  - destruct (body' !! k), (body !! k); simpl;
      rewrite ?option_guard_False by assumption; reflexivity.
Qed.

(** The calls [/check-u2f] makes to the API client. *)
Lemma check_u2f_calls
      (cfg : Config) (convert_number : JsVal -> option JsVal)
      (convert_boolean : list JsVal -> list JsVal -> JsVal -> option bool)
      (joi_message : Joi.Schema -> gmap string JsVal -> string)
      (req : Request) (env : Env) :
  api_calls (events_since env
               (check_u2f cfg convert_number convert_boolean joi_message req env).2)
  = if u2f_enabled cfg then
      match Joi.validate convert_number convert_boolean check_u2f_schema
                         (delete "_csrf" (req_body req)), req_user req with
      | Some _, Some uid =>
          [CheckU2f uid (<[ "ip" := VStr (req_ip req) ]>
                           (filter (fun kv => kv.1 ∈ check_u2f_fields) (req_body req)))]
      | _, _ => []
      end
    else [].
Proof.
  unfold check_u2f, validate.
  destruct (u2f_enabled cfg); cbn [negb]; [|unfold_monad; solve_events; reflexivity].
  destruct (Joi.validate _ _ _ _) as [value|] eqn:Hval;
    [|unfold_monad; solve_events; reflexivity].
  rewrite copy_fields_filter, filter_delete_csrf.
  - destruct (req_user req) as [uid|]; [|unfold_monad; solve_events; reflexivity].
    unfold_monad.
    destruct (env_api env _) as [err|data] eqn:Hapi; [solve_events; reflexivity|].
    destruct data as [[| | | | |fields]|]; try (solve_events; reflexivity).
    destruct (truthy_opt (fields !! "success")); cbn [negb];
      [|solve_events; reflexivity].
    destruct (truthy_opt (value !! "remember2fa")); solve_events; reflexivity.
  - unfold check_u2f_fields. intros H.
    repeat (apply elem_of_cons in H as [H|H]; [discriminate H|]).
    apply elem_of_nil in H. exact H.
  - unfold check_u2f_fields. intros H.
    repeat (apply elem_of_cons in H as [H|H]; [discriminate H|]).
    apply elem_of_nil in H. exact H.
  - apply (validate_keys _ _ _ _ _ Hval).
Qed.


Lemma ip_not_enable_field : "ip" ∉ enable_u2f_fields.
Proof.
  unfold enable_u2f_fields. intros H.
  repeat (apply elem_of_cons in H as [H|H]; [discriminate H|]).
  apply elem_of_nil in H. exact H.
Qed.

(** C7, as stated, fails: a registration that finishes with success in a
    session that requires the second factor leaves [require2fa] true. *)
Lemma enable_u2f_verify_keeps_require2fa :
  let (resp, env') :=
    enable_u2f_verify sample_cfg
      (sample_request {[ "registrationData" := VStr "cmVn" ]}) sample_login_env in
  resp = json_obj (<[ "targetUrl" := VStr "/account/security" ]>
                     {[ "success" := VBool true ]})
  /\ is_error resp = false
  /\ require2fa (env_session sample_login_env) = true
  /\ require2fa (env_session env') <> false.
Proof. vm_compute. repeat split; discriminate. Qed.

(** C7, amended. [/enable-u2f/verify] never writes to the session, so
    [require2fa] is afterwards what it was before.  A finish that succeeds
    (the provider answers [enableU2f] with an object) activates the
    security-key enrollment in the registry and answers with the provider's
    data and the target URL. *)
Theorem enable_u2f_verify_session (cfg : Config) (req : Request) (env : Env) :
  let (resp, env') := enable_u2f_verify cfg req env in
  let requestData :=
    <[ "ip" := VStr (req_ip req) ]>
      (filter (fun kv => kv.1 ∈ enable_u2f_fields) (req_body req)) in
  env_session env' = env_session env
  /\ (forall uid fields reg,
         u2f_enabled cfg = true ->
         req_user req = Some uid ->
         env_api env (EnableU2f uid requestData) = ReplyOk (Some (VObj fields)) ->
         resp = json_obj (<[ "targetUrl" := VStr "/account/security" ]> fields)
         /\ events_since env env' = [EvApi (EnableU2f uid requestData)]
         /\ u2f_active
              (default no_factors
                 (apply_log (env_api env) (events_since env env') reg !! uid)) = true).
Proof.
  unfold enable_u2f_verify.
  rewrite copy_fields_filter by (apply ip_not_enable_field || auto).
  destruct (u2f_enabled cfg); cbn [negb];
    [|unfold_monad; solve_events; split; [reflexivity | discriminate]].
  destruct (req_user req) as [uid|];
    [|unfold_monad; solve_events; split; [reflexivity | discriminate]].
  unfold_monad.
  destruct (env_api env _) as [err|data] eqn:Hapi.
  { solve_events. split; [reflexivity|]. intros ? ? ? _ [= <-] H. congruence. }
  destruct data as [[| | | |items|fields]|]; solve_events;
    (split; [reflexivity|]); intros uid' fields' reg _ [= <-] H;
    rewrite Hapi in H; try discriminate H.
  injection H as <-. repeat split.
  unfold apply_log. cbn [fold_left]. rewrite Hapi. cbn [registry_effect].
  rewrite lookup_insert_eq. reflexivity.
Qed.

(** ** Sessions of one account *)

(** C3, as stated, fails: after [/disable-2fa] from session ["A"] removed
    the account's last factor, session ["B"] of the same account still
    requires the second factor. *)
Lemma disable_2fa_leaves_other_session :
  gate_invariant sample_system
  /\ exists resp sys',
      serve sample_cfg sample_convert_number sample_convert_boolean sample_joi_message
            PostDisable2fa "A" ∅ "192.0.2.7" "c5rf" sample_ambient sample_system
      = Some (resp, sys')
      /\ is_error resp = false
      /\ active_factors (sys_registry sys') sample_user = 0%nat
      /\ (exists st, sys_sessions sys' !! "B" = Some st
                     /\ st_user st = sample_user
                     /\ require2fa (st_session st) = true)
      /\ ~ gate_invariant sys'.
Proof.
  split.
  - intros sid st Hst Hact. exfalso.
    assert (Huser : st_user st = sample_user).
    { unfold sample_system in Hst. cbn [sys_sessions] in Hst.
      destruct (decide (sid = "A")) as [->|HA].
      - rewrite lookup_insert_eq in Hst. injection Hst as <-. reflexivity.
      - rewrite lookup_insert_ne in Hst by congruence.
        destruct (decide (sid = "B")) as [->|HB].
        + rewrite lookup_singleton_eq in Hst. injection Hst as <-. reflexivity.
        + rewrite lookup_singleton_ne in Hst by congruence. discriminate Hst. }
    rewrite Huser in Hact. vm_compute in Hact. discriminate Hact.
  - eexists _, _. split; [vm_compute; reflexivity|].
    split; [reflexivity|]. split; [vm_compute; reflexivity|].
    split.
    + eexists. split; [vm_compute; reflexivity|]. split; reflexivity.
    + intros Hinv.
      specialize (Hinv "B" _ ltac:(vm_compute; reflexivity) ltac:(vm_compute; reflexivity)).
      discriminate Hinv.
Qed.

(** C3, amended. A [/disable-2fa] that succeeds leaves the account without
    Active factors and the requesting session with [require2fa] false,
    whatever it was before; [/disable-2fa] and [/disable-u2f] leave every
    other session as it was. *)
Theorem disable_clears_requesting_session
        (cfg : Config) (convert_number : JsVal -> option JsVal)
        (convert_boolean : list JsVal -> list JsVal -> JsVal -> option bool)
        (joi_message : Joi.Schema -> gmap string JsVal -> string)
        (r : Route) (sid : string) (body : gmap string JsVal) (ip csrf : string)
        (amb : Ambient) (sys sys' : System) (resp : Response) :
  r = PostDisable2fa \/ r = PostDisableU2f ->
  serve cfg convert_number convert_boolean joi_message r sid body ip csrf amb sys
  = Some (resp, sys') ->
  (forall sid', sid' <> sid -> sys_sessions sys' !! sid' = sys_sessions sys !! sid')
  /\ (r = PostDisable2fa ->
      is_error resp = false ->
      exists st,
        sys_sessions sys' !! sid = Some st
        /\ require2fa (st_session st) = false
        /\ active_factors (sys_registry sys') (st_user st) = 0%nat).
Proof.
  intros Hr Hserve. unfold serve in Hserve.
  destruct (sys_sessions sys !! sid) as [st|] eqn:Hst; [|discriminate Hserve].
  cbn [mbind option_bind] in Hserve.
  destruct (handler _ _ _ _ r _ _) as [resp0 env'] eqn:Hrun.
  injection Hserve as <- <-. cbn [sys_sessions sys_registry]. split.
  - intros sid' Hne. apply lookup_insert_ne. congruence.
  - intros -> Hok. cbn [handler] in Hrun. unfold disable_2fa in Hrun.
    cbn [req_user req_ip] in Hrun. revert Hrun. unfold_monad.
    cbn [env_api env_log env_session app].
    destruct (amb_api amb _) as [err|data] eqn:Hapi; intros [= <- <-];
      [discriminate Hok|].
    eexists. split; [apply lookup_insert_eq|].
    cbn [st_session st_user env_session env_log require2fa].
    split; [reflexivity|].
    unfold apply_log. cbn [fold_left]. rewrite Hapi. cbn [registry_effect].
    unfold active_factors. rewrite lookup_delete_eq. reflexivity.
Qed.

(** ** The theorems at the sample requests *)

(** A wrong code: the provider does not confirm, the response is a failure,
    and the session still requires the second factor. *)
Lemma check_totp_clears_on_success_only_witness :
  let (resp, env') :=
    check_totp sample_cfg sample_convert_number sample_convert_boolean sample_joi_message
               (sample_request (totp_body "000000")) sample_login_env in
  is_error resp = true /\ require2fa (env_session env') = true.
Proof.
  pose proof (check_totp_clears_on_success_only
                sample_cfg sample_convert_number sample_convert_boolean sample_joi_message
                (sample_request (totp_body "000000")) sample_login_env) as H.
  destruct (check_totp _ _ _ _ _ _) as [resp env'] eqn:E.
  destruct H as (Hfail & _).
  destruct (Hfail (CheckTotp sample_user (Some (VStr "000000")) "192.0.2.7")) as [He Hs].
  - vm_compute in E. injection E as <- <-. vm_compute. left. reflexivity.
  - reflexivity.
  - split; [exact He|]. rewrite Hs. reflexivity.
Defined.

(** The right code with [remember2fa] on: a token is minted, and the
    response is the success reply carrying it. *)
Lemma mint_only_after_verification_witness :
  is_check_route PostCheckTotp = true
  /\ let (resp, env') :=
       handler sample_cfg sample_convert_number sample_convert_boolean sample_joi_message
               PostCheckTotp (sample_request (totp_body "123456")) sample_login_env in
     In (EvMint sample_user) (events_since sample_login_env env')
     /\ is_error resp = false.
Proof.
  split; [reflexivity|].
  pose proof (mint_only_after_verification
                sample_cfg sample_convert_number sample_convert_boolean sample_joi_message
                PostCheckTotp (sample_request (totp_body "123456")) sample_login_env
                eq_refl) as H.
  destruct (handler _ _ _ _ _ _ _) as [resp env'] eqn:E.
  destruct H as (Hmint & _).
  assert (Hin : In (EvMint sample_user) (events_since sample_login_env env')).
  { vm_compute in E. injection E as <- <-. vm_compute. right. left. reflexivity. }
  split; [exact Hin|]. apply (Hmint sample_user Hin).
Defined.

Lemma u2f_disabled_fails_first_witness :
  is_u2f_route PostCheckU2f = true
  /\ u2f_enabled sample_cfg_no_u2f = false
  /\ let (resp, env') :=
       handler sample_cfg_no_u2f sample_convert_number sample_convert_boolean
               sample_joi_message PostCheckU2f
               (sample_request (u2f_body "a2V5" true)) sample_login_env in
     env' = sample_login_env
     /\ events_since sample_login_env env' = []
     /\ is_error resp = true
     /\ (resp = JsonError u2f_disabled None \/ resp = Next u2f_disabled (Some 404)).
Proof.
  split; [reflexivity|]. split; [reflexivity|].
  apply (u2f_disabled_fails_first
           sample_cfg_no_u2f sample_convert_number sample_convert_boolean sample_joi_message
           PostCheckU2f (sample_request (u2f_body "a2V5" true)) sample_login_env);
    reflexivity.
Defined.

(** A code of five digits and a letter never reaches the provider. *)
Lemma totp_code_checked_before_provider_witness :
  is_totp_route PostCheckTotp = true
  /\ six_digits (req_body (sample_request (totp_body "12345a")) !! "token") = false
  /\ let (resp, env') :=
       handler sample_cfg sample_convert_number sample_convert_boolean sample_joi_message
               PostCheckTotp (sample_request (totp_body "12345a")) sample_login_env in
     is_error resp = true /\ env' = sample_login_env.
Proof.
  split; [reflexivity|]. split; [vm_compute; reflexivity|].
  pose proof (totp_code_checked_before_provider
                sample_cfg sample_convert_number sample_convert_boolean sample_joi_message
                PostCheckTotp (sample_request (totp_body "12345a")) sample_login_env
                eq_refl) as H.
  destruct (handler _ _ _ _ _ _ _) as [resp env'].
  destruct H as (_ & Hbad).
  destruct Hbad as (-> & -> & _); [vm_compute; reflexivity|].
  split; reflexivity.
Defined.


Lemma enable_u2f_verify_session_witness :
  u2f_enabled sample_cfg = true
  /\ let (resp, env') :=
       enable_u2f_verify sample_cfg
         (sample_request {[ "registrationData" := VStr "cmVn" ]}) sample_login_env in
     env_session env' = env_session sample_login_env
     /\ resp = json_obj (<[ "targetUrl" := VStr "/account/security" ]>
                           {[ "success" := VBool true ]}).
Proof.
  split; [reflexivity|].
  pose proof (enable_u2f_verify_session
                sample_cfg (sample_request {[ "registrationData" := VStr "cmVn" ]})
                sample_login_env) as H.
  destruct (enable_u2f_verify _ _ _) as [resp env'].
  destruct H as (Hsess & Hok). split; [exact Hsess|].
  apply (Hok sample_user {[ "success" := VBool true ]} ∅); reflexivity.
Defined.

Lemma disable_clears_requesting_session_witness :
  exists resp sys',
    serve sample_cfg sample_convert_number sample_convert_boolean sample_joi_message
          PostDisable2fa "A" ∅ "192.0.2.7" "c5rf" sample_ambient sample_system
    = Some (resp, sys')
    /\ sys_sessions sys' !! "B" = sys_sessions sample_system !! "B".
Proof.
  eexists _, _. split; [vm_compute; reflexivity|].
  apply (proj1 (disable_clears_requesting_session
                  sample_cfg sample_convert_number sample_convert_boolean
                  sample_joi_message PostDisable2fa "A" ∅ "192.0.2.7" "c5rf"
                  sample_ambient sample_system _ _
                  (or_introl eq_refl) ltac:(vm_compute; reflexivity))).
  discriminate.
Defined.

(** ** Every route *)

(** Case analysis along the branches of a handler. *)
Ltac handler_cases :=
  unfold verify_totp, disable_2fa, check_totp, start_u2f, check_u2f, enable_u2f,
    setup_u2f, disable_u2f, enable_u2f_verify, validate;
  repeat first
    [ progress unfold_monad
    | match goal with
      | |- context [negb (u2f_enabled ?c)] => destruct (u2f_enabled c) eqn:?; cbn [negb]
      | |- context [match Joi.validate ?a ?b ?s ?body with _ => _ end] =>
          destruct (Joi.validate a b s body) eqn:?
      | |- context [match req_user ?r with _ => _ end] => destruct (req_user r) eqn:?
      | |- context [match env_api ?e ?rq with _ => _ end] =>
          destruct (env_api e rq) eqn:?
      | |- context [negb (truthy_opt ?x)] => destruct (truthy_opt x) eqn:?; cbn [negb]
      | |- context [if truthy_opt ?x then _ else _] => destruct (truthy_opt x) eqn:?
      | |- context [match ?d with Some _ => _ | None => _ end] => is_var d; destruct d
      | |- context [match ?d with VNull => _ | _ => _ end] => is_var d; destruct d
      end ].

(** X3. Whatever the route and the request, a handler makes at most one
    call to the API client, for the account of the request's user, and
    mints at most one token, for that account, after the call and on the
    two login checks only. *)
Theorem one_call_for_own_account
        (cfg : Config) (convert_number : JsVal -> option JsVal)
        (convert_boolean : list JsVal -> list JsVal -> JsVal -> option bool)
        (joi_message : Joi.Schema -> gmap string JsVal -> string)
        (r : Route) (req : Request) (env : Env) :
  let (resp, env') := handler cfg convert_number convert_boolean joi_message r req env in
  events_since env env' = []
  \/ exists uid rq,
      req_user req = Some uid
      /\ (events_since env env' = [EvApi rq]
          \/ (is_check_route r = true /\ events_since env env' = [EvApi rq; EvMint uid]))
      /\ api_user rq = uid.
Proof.
  destruct r; cbn [handler]; handler_cases; solve_events;
    try (left; reflexivity);
    right; eexists _, _; (split; [reflexivity|]);
    (split; [first [left; reflexivity | right; split; reflexivity] | reflexivity]).
Qed.

(** X4. The only thing a route ever does to the session is to set
    [require2fa] to false: the user name is kept, [require2fa] is never set
    to true, and the session changes only on [/disable-2fa], [/check-totp]
    and [/check-u2f], and only when the response is not a failure. *)
Theorem session_only_cleared
        (cfg : Config) (convert_number : JsVal -> option JsVal)
        (convert_boolean : list JsVal -> list JsVal -> JsVal -> option bool)
        (joi_message : Joi.Schema -> gmap string JsVal -> string)
        (r : Route) (req : Request) (env : Env) :
  let (resp, env') := handler cfg convert_number convert_boolean joi_message r req env in
  sess_username (env_session env') = sess_username (env_session env)
  /\ (require2fa (env_session env') = true -> require2fa (env_session env) = true)
  /\ (env_session env' <> env_session env ->
      writes_session r = true /\ is_error resp = false
      /\ require2fa (env_session env') = false).
Proof.
  destruct r; cbn [handler]; handler_cases;
    cbn [env_session sess_username require2fa writes_session is_error];
    (split; [reflexivity|]); (split; [intros H; first [exact H | discriminate H]|]);
    intros H; first [contradiction H; reflexivity | repeat split].
Qed.

(** X5. A route adds at most one flash message; it is a ['success']
    message, the response is then not a failure, and the route is one of
    [/verify-totp], [/disable-2fa], [/setup-u2f] and [/disable-u2f]. *)
Theorem flash_only_on_success
        (cfg : Config) (convert_number : JsVal -> option JsVal)
        (convert_boolean : list JsVal -> list JsVal -> JsVal -> option bool)
        (joi_message : Joi.Schema -> gmap string JsVal -> string)
        (r : Route) (req : Request) (env : Env) :
  let (resp, env') := handler cfg convert_number convert_boolean joi_message r req env in
  env_flash env' = env_flash env
  \/ exists message,
      env_flash env' = env_flash env ++ [("success", message)]
      /\ is_error resp = false
      /\ writes_flash r = true.
Proof.
  destruct r; cbn [handler]; handler_cases; cbn [env_flash];
    first [left; reflexivity | right; eexists; repeat split].
Qed.

(** X6. Without a logged-in user ([req.user] undefined) no route calls the
    API client or writes anything; the response is a failure, except for
    the page [/enable-u2f] renders. *)
Theorem no_user_no_effect
        (cfg : Config) (convert_number : JsVal -> option JsVal)
        (convert_boolean : list JsVal -> list JsVal -> JsVal -> option bool)
        (joi_message : Joi.Schema -> gmap string JsVal -> string)
        (r : Route) (req : Request) (env : Env) :
  req_user req = None ->
  let (resp, env') := handler cfg convert_number convert_boolean joi_message r req env in
  env' = env /\ (is_error resp = true \/ r = PostEnableU2f).
Proof.
  intros Hnone.
  destruct r; cbn [handler]; handler_cases; try congruence;
    (split; [reflexivity|]); first [left; reflexivity | right; reflexivity].
Qed.

Lemma validate_unknown
      (convert_number : JsVal -> option JsVal)
      (convert_boolean : list JsVal -> list JsVal -> JsVal -> option bool)
      (schema : Joi.Schema) (body : gmap string JsVal) (k : string) :
  is_Some (body !! k) -> k ∉ schema.*1 ->
  Joi.validate convert_number convert_boolean schema body = None.
Proof.
  intros [v Hv] Hk. unfold Joi.validate.
  rewrite bool_decide_eq_false_2; [reflexivity|].
  intros Hall. apply Hk. exact (Hall k v Hv).
Qed.


Lemma copy_fields_ignores (names : list string) (body init : gmap string JsVal)
      (k : string) (v : JsVal) :
  k ∉ names ->
  copy_fields names (<[ k := v ]> body) (<[ k := v ]> body) init
  = copy_fields names body body init.
Proof.
  intros Hk. apply map_eq. intros j. rewrite !copy_fields_lookup.
  destruct (decide (j = k)) as [->|Hj].
  - rewrite !bool_decide_eq_false_2 by tauto. reflexivity.
  - rewrite !lookup_insert_ne by congruence. reflexivity.
Qed.

(** X8. The [_csrf] field of the body never matters to a handler: whether
    it is there, and whatever its value, the response and every effect are
    the same. *)
Theorem csrf_field_ignored
        (cfg : Config) (convert_number : JsVal -> option JsVal)
        (convert_boolean : list JsVal -> list JsVal -> JsVal -> option bool)
        (joi_message : Joi.Schema -> gmap string JsVal -> string)
        (r : Route) (req : Request) (env : Env) (v : JsVal) :
  handler cfg convert_number convert_boolean joi_message r
          (with_body req (<[ "_csrf" := v ]> (req_body req))) env
  = handler cfg convert_number convert_boolean joi_message r req env.
Proof.
  destruct r; cbn [handler];
    unfold verify_totp, disable_2fa, check_totp, start_u2f, check_u2f, enable_u2f,
      setup_u2f, disable_u2f, enable_u2f_verify;
    cbn [with_body req_body req_ip req_user req_csrf];
    rewrite ?delete_insert_eq; try reflexivity.
  rewrite copy_fields_ignores; [reflexivity|].
  unfold enable_u2f_fields. intros H.
  repeat (apply elem_of_cons in H as [H|H]; [discriminate H|]).
  apply elem_of_nil in H. exact H.
Qed.

(** The calls [/enable-u2f/verify] makes to the API client. *)
Lemma enable_u2f_verify_calls (cfg : Config) (req : Request) (env : Env) :
  api_calls (events_since env (enable_u2f_verify cfg req env).2)
  = if u2f_enabled cfg then
      match req_user req with
      | Some uid =>
          [EnableU2f uid (<[ "ip" := VStr (req_ip req) ]>
                            (filter (fun kv => kv.1 ∈ enable_u2f_fields) (req_body req)))]
      | None => []
      end
    else [].
Proof.
  unfold enable_u2f_verify.
  rewrite copy_fields_filter by (apply ip_not_enable_field || auto).
  handler_cases; solve_events; reflexivity.
Qed.


(** X2. For every request to [/check-u2f]: when the provider was asked and
    did not confirm the key (an error, no data, or data without a truthy
    [success]), the response is a failure and the session is left as it
    was; the session changes only when the provider confirmed, and then
    [require2fa] is false. *)
Theorem check_u2f_clears_on_success_only
        (cfg : Config) (convert_number : JsVal -> option JsVal)
        (convert_boolean : list JsVal -> list JsVal -> JsVal -> option bool)
        (joi_message : Joi.Schema -> gmap string JsVal -> string)
        (req : Request) (env : Env) :
  let (resp, env') := check_u2f cfg convert_number convert_boolean joi_message req env in
  (forall rq, In (EvApi rq) (events_since env env') ->
              u2f_verified (env_api env rq) = false ->
              is_error resp = true /\ env_session env' = env_session env)
  /\ (forall rq, In (EvApi rq) (events_since env env') ->
                 u2f_verified (env_api env rq) = true ->
                 is_error resp = false /\ require2fa (env_session env') = false)
  /\ (env_session env' <> env_session env ->
      exists rq, In (EvApi rq) (events_since env env')
                 /\ u2f_verified (env_api env rq) = true)
  /\ (is_error resp = true -> env_session env' = env_session env).
Proof.
  handler_cases; solve_events; route_auto;
    repeat match goal with
           | H : truthy_opt _ = _ |- _ => rewrite H in *
           end; cbn in *; try congruence; try reflexivity;
    repeat match goal with
           | H : context [(_ && false)%bool] |- _ => rewrite andb_false_r in H
           end; try discriminate.
Qed.

(** X10. A login check that passes validation, for a logged-in user, with
    a provider that confirms the factor, succeeds: the response is not a
    failure, [require2fa] is false afterwards, the provider was called once,
    and a token was minted exactly when the validated [remember2fa] is
    truthy. *)
Theorem check_succeeds
        (cfg : Config) (convert_number : JsVal -> option JsVal)
        (convert_boolean : list JsVal -> list JsVal -> JsVal -> option bool)
        (joi_message : Joi.Schema -> gmap string JsVal -> string)
        (r : Route) (req : Request) (env : Env)
        (value : gmap string JsVal) (uid : string) :
  is_check_route r = true ->
  (r = PostCheckU2f -> u2f_enabled cfg = true) ->
  Joi.validate convert_number convert_boolean (check_schema r)
               (delete "_csrf" (req_body req)) = Some value ->
  req_user req = Some uid ->
  verified r (env_api env (check_call r req uid)) = true ->
  let (resp, env') := handler cfg convert_number convert_boolean joi_message r req env in
  is_error resp = false
  /\ env_session env'
     = {| sess_username := sess_username (env_session env); require2fa := false |}
  /\ events_since env env'
     = EvApi (check_call r req uid)
         :: (if truthy_opt (value !! "remember2fa") then [EvMint uid] else []).
Proof.
  intros Hr Hon Hval Huser Hok.
  destruct r; try discriminate Hr; cbn [handler check_schema verified check_call] in *.
  - (* /check-totp *)
    destruct (validate_token _ _ _ _ _ Hval) as [_ Hsame].
    rewrite lookup_delete_ne in Hsame by discriminate.
    unfold check_totp, validate. rewrite Hval, Huser, Hsame. unfold_monad.
    destruct (env_api env _) as [err|result]; [discriminate Hok|].
    cbn [totp_verified] in Hok. rewrite Hok. cbn [negb].
    destruct (truthy_opt (value !! "remember2fa")); solve_events; repeat split.
  - (* /check-u2f *)
    unfold check_u2f, validate. rewrite (Hon eq_refl), Hval, Huser. cbn [negb].
    rewrite copy_fields_filter, filter_delete_csrf.
    + unfold_monad.
      destruct (env_api env _) as [err|[data|]]; try discriminate Hok.
      cbn [u2f_verified] in Hok. apply andb_true_iff in Hok as [_ Hok].
      destruct data as [| | | | |fields]; try discriminate Hok.
      cbn [prop] in Hok. rewrite Hok. cbn [negb].
      destruct (truthy_opt (value !! "remember2fa")); solve_events; repeat split.
    + unfold check_u2f_fields. intros H.
      repeat (apply elem_of_cons in H as [H|H]; [discriminate H|]).
      apply elem_of_nil in H. exact H.
    + unfold check_u2f_fields. intros H.
      repeat (apply elem_of_cons in H as [H|H]; [discriminate H|]).
      apply elem_of_nil in H. exact H.
    + apply (validate_keys _ _ _ _ _ Hval).
Qed.

(** ** The token, once more *)

Lemma hex_of_bytes_inj (bs bs' : list byte) :
  Hex.hex_of_bytes bs = Hex.hex_of_bytes bs' -> bs = bs'.
Proof.
  intros H. apply (f_equal Hex.bytes_of_hex) in H.
  rewrite !bytes_of_hex_of_bytes in H. injection H as ->. reflexivity.
Qed.

Lemma toString16_inj (n n' : N) : Hex.toString16 n = Hex.toString16 n' -> n = n'.
Proof.
  intros H. apply (f_equal Hex.of_hex) in H.
  rewrite !of_hex_toString16 in H. injection H as ->. reflexivity.
Qed.

(** X1. Two minted tokens are equal only if they were minted at the same
    millisecond, with the same six random bytes, and carry the same
    signature: whatever the secrets and the accounts, a different time or a
    different nonce gives a different token. *)
Theorem generate2faRemeberToken_inj
        (cfg cfg' : Config) (user user' : string) (env env' : Env) :
  fst (generate2faRemeberToken cfg user env)
  = fst (generate2faRemeberToken cfg' user' env') ->
  env_now env = env_now env'
  /\ nonce_of env = nonce_of env'
  /\ hmac_hex (signing_key cfg user) (message_of env)
     = hmac_hex (signing_key cfg' user') (message_of env').
Proof.
  intros H. apply (f_equal (Js.split "::")) in H.
  rewrite !split_token in H.
  assert (Hparts : forall a b c a' b' c' : string,
             [a; b; c] = [a'; b'; c'] -> a = a' /\ b = b' /\ c = c')
    by (intros; repeat split; congruence).
  apply Hparts in H as (Hts & Hnonce & Hsig).
  repeat split.
  - apply toString16_inj. exact Hts.
  - apply hex_of_bytes_inj. exact Hnonce.
  - exact Hsig.
Qed.

(** ** Showing an application password *)

Lemma white_space_line_terminator (c : ascii) :
  is_white_space c = false -> is_line_terminator c = false.
Proof.
  unfold is_white_space, is_line_terminator.
  destruct (N.eqb_spec (N_of_ascii c) 10) as [->|]; [discriminate|].
  destruct (N.eqb_spec (N_of_ascii c) 13) as [->|]; [discriminate|].
  reflexivity.
Qed.

Lemma white_space_space (c : ascii) : is_white_space c = false -> Ascii.eqb c " " = false.
Proof.
  intros H. destruct (Ascii.eqb_spec c " ") as [->|]; [discriminate H | reflexivity].
Qed.

Lemma trim_end_cons (c : ascii) (s : string) :
  is_white_space c = false -> trim_end (String c s) = String c (trim_end s).
Proof. intros H. simpl. destruct (trim_end s); rewrite ?H; reflexivity. Qed.

Lemma trim_end_clean (s : string) : no_white_space s = true -> trim_end s = s.
Proof.
  induction s as [|c s IH]; [reflexivity|]. unfold no_white_space in *.
  cbn [Hex.all_chars].
  intros [Hc Hs]%andb_true_iff. apply negb_true_iff in Hc.
  rewrite trim_end_cons by exact Hc. rewrite IH by exact Hs. reflexivity.
Qed.

Lemma trim_start_replace_groups (s : string) :
  no_white_space s = true -> trim_start (replace_groups s) = replace_groups s.
Proof.
  destruct s as [|a s1]; [reflexivity|]. unfold no_white_space. simpl Hex.all_chars.
  intros [Ha _]%andb_true_iff. apply negb_true_iff in Ha.
  cbn [replace_groups]. destruct s1 as [|b [|c [|d rest]]];
    try (cbn [trim_start]; rewrite Ha; reflexivity).
  destruct (_ && _); cbn [trim_start]; rewrite Ha; reflexivity.
Qed.

Lemma without_spaces_clean (s : string) :
  no_white_space s = true -> without_spaces s = s.
Proof.
  induction s as [|c s IH]; [reflexivity|]. unfold no_white_space in *.
  cbn [Hex.all_chars without_spaces].
  intros [Hc Hs]%andb_true_iff. apply negb_true_iff in Hc.
  rewrite (white_space_space c Hc), (IH Hs). reflexivity.
Qed.

(** The clean string [s] either has fewer than four characters or starts
    with four clean ones. *)
Lemma clean_cases (s : string) :
  no_white_space s = true ->
  (replace_groups s = s /\ groups_of_four s = match s with EmptyString => [] | _ => [s] end
   /\ (String.length s < 4)%nat)
  \/ exists a b c d rest,
      s = String a (String b (String c (String d rest)))
      /\ is_white_space a = false /\ is_white_space b = false
      /\ is_white_space c = false /\ is_white_space d = false
      /\ no_white_space rest = true
      /\ replace_groups s
         = String a (String b (String c (String d (String " " (replace_groups rest))))).
Proof.
  intros Hs. destruct s as [|a [|b [|c [|d rest]]]];
    try (left; repeat split; simpl; lia).
  right. exists a, b, c, d, rest. unfold no_white_space in Hs. simpl in Hs.
  apply andb_true_iff in Hs as [Ha Hs]. apply andb_true_iff in Hs as [Hb Hs].
  apply andb_true_iff in Hs as [Hc Hs]. apply andb_true_iff in Hs as [Hd Hs].
  apply negb_true_iff in Ha, Hb, Hc, Hd.
  repeat split; try assumption.
  cbn [replace_groups].
  rewrite !white_space_line_terminator by assumption. reflexivity.
Qed.

Lemma trim_end_replace_groups (n : nat) (s : string) :
  (String.length s <= n)%nat ->
  no_white_space s = true ->
  trim_end (replace_groups s) = Js.join " " (groups_of_four s)
  /\ without_spaces (Js.join " " (groups_of_four s)) = s.
Proof.
  revert s. induction n as [|n IH]; intros s Hlen Hs.
  - destruct s; [split; reflexivity | simpl in Hlen; lia].
  - destruct (clean_cases s Hs) as [(Hrep & Hgr & Hshort)|
                                     (a & b & c & d & rest & -> & Ha & Hb & Hc & Hd & Hrest & Hrep)].
    + rewrite Hrep, Hgr. destruct s as [|a s']; [split; reflexivity|].
      cbn [Js.join]. split; [apply trim_end_clean | apply without_spaces_clean]; exact Hs.
    + destruct (IH rest) as [IHtrim IHstrip]; [simpl in Hlen; lia | exact Hrest |].
      rewrite Hrep. rewrite !trim_end_cons by assumption.
      cbn [groups_of_four].
      destruct rest as [|e rest'].
      * split; [reflexivity|]. cbn [groups_of_four Js.join without_spaces].
        rewrite !white_space_space by assumption. reflexivity.
      * assert (Hne : groups_of_four (String e rest') <> []).
        { destruct rest' as [|? [|? [|? ?]]]; discriminate. }
        rewrite join_cons by exact Hne. split.
        -- cbn [trim_end]. rewrite IHtrim.
           destruct (Js.join " " (groups_of_four (String e rest'))) eqn:Hj.
           ++ exfalso. discriminate IHstrip.
           ++ reflexivity.
        -- repeat (rewrite str_app_cons || rewrite str_app_nil_l).
           cbn [without_spaces].
           rewrite !white_space_space by assumption.
           change (Ascii.eqb " " " ") with true. cbv iota.
           rewrite IHstrip. reflexivity.
Qed.

(** X11. A password without white-space characters is shown in groups of
    four characters separated by single spaces, without a leading or
    trailing space; the last group is shorter when the length is no multiple
    of four, and the empty password is shown empty. *)
Theorem passwordFormatted_groups (password : string) :
  no_white_space password = true ->
  passwordFormatted password = Js.join " " (groups_of_four password).
Proof.
  intros Hs. unfold passwordFormatted, trim.
  rewrite trim_start_replace_groups by exact Hs.
  apply (trim_end_replace_groups (String.length password)); [lia | exact Hs].
Qed.

(** X12. Removing the spaces from the shown form of a password without
    white-space characters gives back the password. *)
Theorem passwordFormatted_round_trip (password : string) :
  no_white_space password = true ->
  without_spaces (passwordFormatted password) = password.
Proof.
  intros Hs. unfold passwordFormatted, trim.
  rewrite trim_start_replace_groups by exact Hs.
  destruct (trim_end_replace_groups (String.length password) password) as [Hshown Hstrip];
    [lia | exact Hs |].
  rewrite Hshown. exact Hstrip.
Qed.

(** ** Listing the application passwords *)

(** X13. [/security] lists as many application passwords as the API
    returned, last one first: the entry shown at position [k] is the entry
    the API returned at position [n - 1 - k], numbered [k + 1], with the
    scope ['All'] when its scopes include ['*'] and the scopes joined with
    [', '] otherwise; its other properties are as they came. *)
Theorem listed_asps_newest_first (asps : list Asp) (k : nat) :
  length (listed_asps asps) = length asps
  /\ (k < length asps ->
      exists entry shown,
        asps !! (length asps - S k) = Some entry
        /\ listed_asps asps !! k = Some shown
        /\ asp_scopes shown = asp_scopes entry
        /\ asp_fields shown !! "index" = Some (VNum (Z.of_nat k + 1))
        /\ asp_fields shown !! "scope"
           = Some (VStr (if bool_decide ("*" ∈ asp_scopes entry) then "All"
                         else Js.join ", " (asp_scopes entry)))
        /\ (forall name, name <> "index" -> name <> "scope" ->
                         asp_fields shown !! name = asp_fields entry !! name))%nat.
Proof.
  unfold listed_asps. split; [rewrite length_imap; apply length_reverse|].
  intros Hk. destruct (lookup_lt_is_Some_2 asps (length asps - S k)) as [entry He]; [lia|].
  exists entry, (number_entry k entry).
  split; [exact He|]. split.
  { rewrite list_lookup_imap, reverse_lookup by exact Hk. rewrite He. reflexivity. }
  cbn [number_entry asp_scopes asp_fields]. repeat split.
  - rewrite lookup_insert_ne by discriminate. apply lookup_insert_eq.
  - apply lookup_insert_eq.
  - intros name Hi Hs. rewrite !lookup_insert_ne by congruence. reflexivity.
Qed.

(** ** The authentication log *)

Lemma label_result_other (entry : gmap string JsVal) (k : string) :
  k <> "result" -> k <> "label" -> label_result entry !! k = entry !! k.
Proof.
  intros Hr Hl. unfold label_result.
  destruct (entry !! "result") as [result|]; [|reflexivity].
  destruct (is_string "success" result);
    [rewrite !lookup_insert_ne by congruence; reflexivity|].
  destruct (is_string "fail" result);
    [rewrite !lookup_insert_ne by congruence; reflexivity | reflexivity].
Qed.

Lemma describe_action_other (entry : gmap string JsVal) (k : string) :
  k <> "action" -> describe_action entry !! k = entry !! k.
Proof.
  intros Hk. unfold describe_action.
  destruct (event_description _); [|reflexivity].
  apply lookup_insert_ne. congruence.
Qed.

Lemma default_protocol_other (entry : gmap string JsVal) (k : string) :
  k <> "protocol" -> default_protocol entry !! k = entry !! k.
Proof.
  intros Hk. unfold default_protocol.
  destruct (entry !! "protocol") as [p|];
    [destruct (_ || _); [|reflexivity]|]; apply lookup_insert_ne; congruence.
Qed.

Lemma wrap_asp_other (entry : gmap string JsVal) (k : string) :
  k <> "asp" -> wrap_asp entry !! k = entry !! k.
Proof.
  intros Hk. unfold wrap_asp.
  destruct (entry !! "asp") as [asp|]; [|reflexivity].
  destruct (truthy asp); [|reflexivity]. apply lookup_insert_ne. congruence.
Qed.

Lemma default_protocol_set (entry : gmap string JsVal) :
  exists p, default_protocol entry !! "protocol" = Some p
            /\ truthy p = true /\ is_string "API" p = false.
Proof.
  unfold default_protocol. destruct (entry !! "protocol") as [p|] eqn:Hp.
  - destruct (truthy p) eqn:Ht; cbn [negb orb].
    + destruct (is_string "API" p) eqn:Ha.
      * exists (VStr "Web"). rewrite lookup_insert_eq. repeat split.
      * exists p. repeat split; assumption.
    + exists (VStr "Web"). rewrite lookup_insert_eq. repeat split.
  - exists (VStr "Web"). rewrite lookup_insert_eq. repeat split.
Qed.

(** X14. After an entry of the authentication log has been rewritten for
    display, it always has a protocol, which is truthy and is not ['API']:
    a missing, empty or ['API'] protocol is shown as ['Web'], any other
    protocol as it came. *)
Theorem show_entry_protocol (entry : gmap string JsVal) :
  exists p,
    show_entry entry !! "protocol" = Some p
    /\ truthy p = true
    /\ p <> VStr "API"
    /\ (p = VStr "Web" \/ entry !! "protocol" = Some p).
Proof.
  unfold show_entry.
  rewrite label_result_other, describe_action_other by discriminate.
  pose proof (wrap_asp_other entry "protocol" ltac:(discriminate)) as Hw.
  destruct (default_protocol_set (wrap_asp entry)) as (p & Hp & Ht & Ha).
  exists p. split; [exact Hp|]. split; [exact Ht|]. split.
  - intros ->. discriminate Ha.
  - unfold default_protocol in Hp. rewrite Hw in Hp.
    destruct (entry !! "protocol") as [q|].
    + destruct (_ || _).
      * rewrite lookup_insert_eq in Hp. left. congruence.
      * rewrite Hw in Hp. right. exact Hp.
    + rewrite lookup_insert_eq in Hp. left. congruence.
Qed.

(** X15. Rewriting a log entry touches the properties [asp], [protocol],
    [action], [result] and [label] only, and sets the label from the result
    as it came: ['success'] for the result ['success'], ['danger'] for
    ['fail'], and no label of its own for any other result. *)
Theorem show_entry_frame (entry : gmap string JsVal) :
  (forall k, k ∉ ["asp"; "protocol"; "action"; "result"; "label"] ->
             show_entry entry !! k = entry !! k)
  /\ show_entry entry !! "label"
     = match entry !! "result" with
       | Some result =>
           if is_string "success" result then Some (VStr "success")
           else if is_string "fail" result then Some (VStr "danger")
           else entry !! "label"
       | None => entry !! "label"
       end.
Proof.
  split.
  - intros k Hk. unfold show_entry.
    rewrite label_result_other, describe_action_other, default_protocol_other,
      wrap_asp_other; [reflexivity| | | | |];
      intros ->; apply Hk; repeat constructor.
  - assert (Hres : describe_action (default_protocol (wrap_asp entry)) !! "result"
                   = entry !! "result").
    { rewrite describe_action_other, default_protocol_other, wrap_asp_other
        by discriminate. reflexivity. }
    assert (Hlab : describe_action (default_protocol (wrap_asp entry)) !! "label"
                   = entry !! "label").
    { rewrite describe_action_other, default_protocol_other, wrap_asp_other
        by discriminate. reflexivity. }
    unfold show_entry, label_result. rewrite Hres.
    destruct (entry !! "result") as [result|]; [|exact Hlab].
    destruct (is_string "success" result).
    { rewrite lookup_insert_ne by discriminate. apply lookup_insert_eq. }
    destruct (is_string "fail" result); [|exact Hlab].
    rewrite lookup_insert_ne by discriminate. apply lookup_insert_eq.
Qed.

(** No description of an event is itself the name of an event. *)
Lemma descriptions_are_final :
  map_Forall (fun _ d => AUTH_EVENTS !! d = None) AUTH_EVENTS.
Proof.
  apply (bool_decide_unpack
           (map_Forall (fun (_ : string) (d : string) => AUTH_EVENTS !! d = None)
                       AUTH_EVENTS)).
  vm_compute. exact I.
Qed.

Lemma event_description_final (action : option JsVal) (d : string) :
  event_description action = Some d -> event_description (Some (VStr d)) = None.
Proof.
  unfold event_description at 1. destruct action as [[| | |a| |]|]; try discriminate.
  destruct (AUTH_EVENTS !! a) as [d'|] eqn:Ha; [|discriminate].
  destruct (String.eqb d' EmptyString); [discriminate|]. intros [= <-].
  unfold event_description. rewrite (descriptions_are_final a d' Ha). reflexivity.
Qed.

(** X16. Rewriting a log entry that has no application password twice
    gives what rewriting it once gives: the shown protocol, action, result
    and label are not rewritten again. *)
Theorem show_entry_idempotent (entry : gmap string JsVal) :
  truthy_opt (entry !! "asp") = false ->
  show_entry (show_entry entry) = show_entry entry.
Proof.
  intros Hasp.
  assert (Hw : wrap_asp entry = entry).
  { unfold wrap_asp. destruct (entry !! "asp") as [asp|]; [|reflexivity].
    cbn [truthy_opt] in Hasp. rewrite Hasp. reflexivity. }
  set (shown := show_entry entry).
  assert (H1 : wrap_asp shown = shown).
  { unfold wrap_asp.
    assert (Hs : shown !! "asp" = entry !! "asp").
    { unfold shown, show_entry.
      rewrite label_result_other, describe_action_other, default_protocol_other
        by discriminate. rewrite Hw. reflexivity. }
    rewrite Hs. destruct (entry !! "asp") as [asp|]; [|reflexivity].
    cbn [truthy_opt] in Hasp. rewrite Hasp. reflexivity. }
  assert (H2 : default_protocol shown = shown).
  { destruct (default_protocol_set (wrap_asp entry)) as (p & Hp & Ht & Ha).
    assert (Hs : shown !! "protocol" = Some p).
    { unfold shown, show_entry.
      rewrite label_result_other, describe_action_other by discriminate. exact Hp. }
    unfold default_protocol. rewrite Hs, Ht, Ha. reflexivity. }
  assert (H3 : describe_action shown = shown).
  { assert (Hs : event_description (shown !! "action") = None).
    { unfold shown, show_entry. rewrite label_result_other by discriminate.
      unfold describe_action.
      destruct (event_description (default_protocol (wrap_asp entry) !! "action"))
        as [d|] eqn:Hd.
      - rewrite lookup_insert_eq. apply (event_description_final _ _ Hd).
      - exact Hd. }
    unfold describe_action. rewrite Hs. reflexivity. }
  assert (H4 : label_result shown = shown).
  { unfold shown, show_entry.
    set (e2 := describe_action (default_protocol (wrap_asp entry))).
    assert (Hcases : label_result e2 = e2
                     \/ label_result e2 !! "result" = Some (VStr "Success")
                     \/ label_result e2 !! "result" = Some (VStr "Failed")).
    { unfold label_result. destruct (e2 !! "result") as [result|]; [|left; reflexivity].
      destruct (is_string "success" result);
        [right; left; apply lookup_insert_eq|].
      destruct (is_string "fail" result);
        [right; right; apply lookup_insert_eq | left; reflexivity]. }
    destruct Hcases as [Hid|[Hres|Hres]].
    - rewrite Hid. exact Hid.
    - unfold label_result at 1. rewrite Hres. reflexivity.
    - unfold label_result at 1. rewrite Hres. reflexivity. }
  unfold show_entry at 1. fold shown. rewrite H1, H2, H3, H4. reflexivity.
Qed.

(** ** Collecting validation errors *)

Lemma collect_keeps (details : list (string * string)) (errors : gmap string JsVal)
      (p m : string) :
  m <> EmptyString ->
  errors !! p = Some (VStr m) ->
  foldl collect_step errors details !! p = Some (VStr m).
Proof.
  intros Hm. revert errors. induction details as [|[q m'] details IH]; intros errors He.
  - exact He.
  - cbn [foldl]. apply IH. unfold collect_step. cbn [fst snd].
    destruct (decide (q = p)) as [->|Hq].
    + rewrite He. cbn [truthy_opt truthy].
      destruct (String.eqb_spec m EmptyString); [contradiction|]. exact He.
    + destruct (negb _); [rewrite lookup_insert_ne by exact Hq|]; exact He.
Qed.

Lemma collect_dom (details : list (string * string)) (errors : gmap string JsVal)
      (p : string) :
  is_Some (foldl collect_step errors details !! p)
  <-> is_Some (errors !! p) \/ p ∈ details.*1.
Proof.
  revert errors. induction details as [|[q m] details IH]; intros errors.
  - cbn. rewrite elem_of_nil. tauto.
  - cbn [foldl fmap list_fmap fst]. rewrite IH, elem_of_cons.
    unfold collect_step. cbn [fst snd].
    destruct (negb (truthy_opt (errors !! q))) eqn:Hq.
    + rewrite lookup_insert_is_Some. destruct (decide (q = p)); intuition congruence.
    + destruct (errors !! q) eqn:Heq; [|discriminate Hq].
      split; [tauto|]. intros [H|[->|H]]; [tauto | | tauto].
      left. rewrite Heq. eauto.
Qed.


(** ** The account pages *)

Ltac unfold_page :=
  unfold show_create_errors, call_account, page_flash_add, flash_details;
  cbn [negb aerr_fields aerr_message]; cbv [mbind mret P_bind P_ret]; cbn beta iota.

Ltac solve_page :=
  unfold calls_since, flashes_since; cbn [fst snd page_calls page_flash page_api];
  rewrite <- ?app_assoc, ?app_nil_r;
  rewrite ?drop_app_length, ?drop_all; cbn [app].

Lemma validate_asp_delete_inv (body : gmap string JsVal) (id : string) :
  validate_asp_delete body = Some id ->
  exists raw,
    body !! "id" = Some (VStr raw)
    /\ id = trim raw
    /\ String.length id = 24%nat
    /\ Hex.all_chars is_hex_digit id = true.
Proof.
  unfold validate_asp_delete, validate_asp_id.
  destruct (bool_decide _); [|discriminate].
  destruct (body !! "id") as [[| | |raw| |]|]; try discriminate.
  cbv zeta. destruct (Nat.eqb_spec (String.length (trim raw)) 24) as [Hlen|]; [|discriminate].
  destruct (Hex.all_chars is_hex_digit (trim raw)) eqn:Hhex; [|discriminate].
  intros [= <-]. exists raw. repeat split; assumption.
Qed.

(** X18. [/asp/delete] asks the API to delete a password only for the
    request's user and only with an id of exactly 24 hexadecimal digits,
    which is the [id] of the body without the white space around it; for a
    body whose [id] is missing, no string, or not of that shape, no call is
    made. *)
Theorem asp_delete_id_checked
        (joi_details : gmap string JsVal -> list (string * string))
        (req : Request) (pg : Page) :
  let (resp, pg') := asp_delete joi_details req pg in
  (forall rq,
      In rq (calls_since pg pg') ->
      exists uid raw,
        req_user req = Some uid
        /\ req_body req !! "id" = Some (VStr raw)
        /\ rq = AspsDel uid (trim raw) (req_ip req)
        /\ String.length (trim raw) = 24%nat
        /\ Hex.all_chars is_hex_digit (trim raw) = true)
  /\ (validate_asp_id (req_body req !! "id") = None ->
      calls_since pg pg' = [] /\ resp = PRedirect "/account/security").
Proof.
  assert (Hid : delete "_csrf" (req_body req) !! "id" = req_body req !! "id")
    by (apply lookup_delete_ne; discriminate).
  unfold asp_delete.
  destruct (validate_asp_delete _) as [id|] eqn:Hval.
  - destruct (validate_asp_delete_inv _ _ Hval) as (raw & Hraw & -> & Hlen & Hhex).
    rewrite Hid in Hraw.
    assert (Hsome : validate_asp_id (req_body req !! "id") = Some (trim raw)).
    { unfold validate_asp_id. rewrite Hraw. cbv zeta. rewrite Hlen, Hhex. reflexivity. }
    destruct (req_user req) as [uid|]; unfold_page;
      [destruct (page_api pg _)|]; solve_page; (split; [|congruence]).
    + intros rq [<-|[]]. exists uid, raw. repeat split; assumption.
    + intros rq [<-|[]]. exists uid, raw. repeat split; assumption.
    + intros rq [].
  - unfold_page. solve_page. split; [intros rq []|]. intros _. split; reflexivity.
Qed.

(** X19. Whatever happens on [/asp/delete], the answer is a redirect to
    the security page (unless no user is logged in), and the flash messages
    added are Joi's complaints or one of two fixed texts: the message of an
    API error is never shown. *)
Theorem asp_delete_redirects
        (joi_details : gmap string JsVal -> list (string * string))
        (req : Request) (pg : Page) :
  let (resp, pg') := asp_delete joi_details req pg in
  (resp = PRedirect "/account/security" \/ (resp = PThrow /\ req_user req = None))
  /\ (flashes_since pg pg'
      = map (fun d => ("danger", d.2)) (joi_details (delete "_csrf" (req_body req)))
      \/ flashes_since pg pg' = [("danger", "Database Error, failed to delete data")]
      \/ flashes_since pg pg' = [("success", "Application specific password was deleted")]
      \/ (flashes_since pg pg' = [] /\ resp = PThrow)).
Proof.
  unfold asp_delete.
  destruct (validate_asp_delete _) as [id|].
  - destruct (req_user req) as [uid|]; unfold_page;
      [destruct (page_api pg _)|]; solve_page; split; auto 6.
  - unfold_page. solve_page. split; auto.
Qed.

(** X20. [/asp/create] asks the API at most once, for the request's user,
    for a password with the validated description, the scope ['*'], a
    mobile configuration and the client address.  It renders the password
    page only when the API answered with a string password, and the page
    then shows that password together with its grouped form; in every other
    case the answer is a redirect to the security page or an exception. *)
Theorem asp_create_outcomes
        (joi_details : gmap string JsVal -> list (string * string))
        (joi_asp_create : gmap string JsVal -> AspCreateResult)
        (req : Request) (pg : Page) :
  let (resp, pg') := asp_create joi_details joi_asp_create req pg in
  (forall rq,
      In rq (calls_since pg pg') ->
      calls_since pg pg' = [rq]
      /\ exists uid description data,
          req_user req = Some uid
          /\ joi_asp_create (delete "_csrf" (req_body req)) = AspCreateValid description
          /\ rq = AspsCreate uid data
          /\ data !! "description" = Some (VStr description)
          /\ data !! "scopes" = Some (VStr "*")
          /\ data !! "generateMobileconfig" = Some (VBool true)
          /\ data !! "ip" = Some (VStr (req_ip req))
          /\ dom data = {[ "description"; "scopes"; "generateMobileconfig"; "ip" ]})
  /\ (forall view locals,
         resp = PRender view locals ->
         view = "account/asp"
         /\ exists rq response password,
             calls_since pg pg' = [rq]
             /\ page_api pg rq = AccOk (Some (VObj response))
             /\ response !! "password" = Some (VStr password)
             /\ locals !! "password" = Some (VStr password)
             /\ locals !! "passwordFormatted" = Some (VStr (passwordFormatted password)))
  /\ (resp = PRedirect "/account/security" \/ resp = PThrow
      \/ exists locals, resp = PRender "account/asp" locals).
Proof.
  unfold asp_create.
  destruct (joi_asp_create _) as [|description] eqn:Hval.
  { unfold_page. solve_page. split; [intros rq []|]. split; [discriminate | auto]. }
  destruct (req_user req) as [uid|].
  2:{ unfold_page. solve_page. split; [intros rq []|]. split; [discriminate | auto]. }
  unfold_page.
  assert (Hdata : forall rq,
             In rq [AspsCreate uid
                      (<[ "description" := VStr description ]>
                         (<[ "scopes" := VStr "*" ]>
                            (<[ "generateMobileconfig" := VBool true ]>
                               {[ "ip" := VStr (req_ip req) ]})))] ->
             [AspsCreate uid
                (<[ "description" := VStr description ]>
                   (<[ "scopes" := VStr "*" ]>
                      (<[ "generateMobileconfig" := VBool true ]>
                         {[ "ip" := VStr (req_ip req) ]})))] = [rq]
             /\ exists uid' description' data,
                 Some uid = Some uid'
                 /\ AspCreateValid description = AspCreateValid description'
                 /\ rq = AspsCreate uid' data
                 /\ data !! "description" = Some (VStr description')
                 /\ data !! "scopes" = Some (VStr "*")
                 /\ data !! "generateMobileconfig" = Some (VBool true)
                 /\ data !! "ip" = Some (VStr (req_ip req))
                 /\ dom data = {[ "description"; "scopes"; "generateMobileconfig"; "ip" ]}).
  { intros rq [<-|[]]. split; [reflexivity|].
    eexists _, _, _. repeat split; try reflexivity;
      first [ rewrite !dom_insert_L, dom_singleton_L; set_solver
            | rewrite ?lookup_insert_ne by discriminate;
              rewrite ?lookup_insert_eq, ?lookup_singleton_eq; reflexivity ]. }
  destruct (page_api pg _) as [e|data] eqn:Hapi.
  { solve_page. split; [exact Hdata|]. split; [discriminate | auto]. }
  destruct data as [[| | | | |response]|];
    try (solve_page; split; [exact Hdata|]; split; [discriminate | auto]).
  destruct (response !! "password") as [[| | |password| |]|] eqn:Hpw;
    try (solve_page; split; [exact Hdata|]; split; [discriminate | auto]).
  solve_page. split; [exact Hdata|]. split.
  - intros view locals [= <- <-]. split; [reflexivity|].
    eexists _, response, password. split; [reflexivity|].
    split; [exact Hapi|]. split; [exact Hpw|].
    destruct (response !! "mobileconfig");
      rewrite !lookup_insert_ne by discriminate;
      rewrite ?lookup_insert_eq, ?lookup_singleton_eq; split; reflexivity.
  - right. right. eexists. reflexivity.
Qed.

(** X21. With registration switched off ([config.service.allowJoin] not
    truthy), both [GET /create] and [POST /create] answer with the 404 error
    "User registration is disabled" and do nothing else: the body is not
    validated, the API is not called, nothing is flashed. *)
Theorem create_disabled
        (service : ServiceConfig)
        (joi_details : gmap string JsVal -> list (string * string))
        (roleBasedAddresses : list string)
        (joi_create : gmap string JsVal -> CreateResult)
        (req : Request) (pg : Page) :
  allowJoin service = false ->
  get_create service req pg = (PNext registration_disabled (Some 404), pg)
  /\ post_create service joi_details roleBasedAddresses joi_create req pg
     = (PNext registration_disabled (Some 404), pg).
Proof.
  intros Hoff. unfold get_create, post_create. rewrite Hoff. split; reflexivity.
Qed.

(** X22. [POST /create] asks the API for an account only after validation
    passed with a user name that is neither one of the nine reserved names
    nor a role-based address; the account asked for has the validated name,
    user name and password, the address [username@domain], 500 recipients
    and forwards, a quota of 1 GiB and the client address. *)
Theorem create_never_reserved
        (service : ServiceConfig)
        (joi_details : gmap string JsVal -> list (string * string))
        (roleBasedAddresses : list string)
        (joi_create : gmap string JsVal -> CreateResult)
        (req : Request) (pg : Page) :
  let (resp, pg') :=
    post_create service joi_details roleBasedAddresses joi_create req pg in
  forall rq,
    In rq (calls_since pg pg') ->
    calls_since pg pg' = [rq]
    /\ exists name username password value data,
        joi_create (delete "_csrf" (req_body req)) = CreateValid name username password value
        /\ (username ∉ reserved_usernames)
        /\ (username ∉ roleBasedAddresses)
        /\ rq = UsersCreate data
        /\ data !! "name" = Some (VStr name)
        /\ data !! "username" = Some (VStr username)
        /\ data !! "password" = Some (VStr password)
        /\ data !! "address" = Some (VStr (username +:+ "@" +:+ domain service))
        /\ data !! "recipients" = Some (VNum 500)
        /\ data !! "forwards" = Some (VNum 500)
        /\ data !! "quota" = Some (VNum 1073741824)
        /\ data !! "ip" = Some (VStr (req_ip req)).
Proof.
  unfold post_create.
  destruct (allowJoin service); cbn [negb]; [|unfold_page; solve_page; intros rq []].
  destruct (joi_create _) as [value|name username password value] eqn:Hval;
    [unfold_page; solve_page; intros rq []|].
  destruct (bool_decide (username ∈ reserved_usernames)) eqn:Hres; cbn [orb];
    [unfold_page; solve_page; intros rq []|].
  destruct (bool_decide (username ∈ roleBasedAddresses)) eqn:Hrole;
    [unfold_page; solve_page; intros rq []|].
  apply bool_decide_eq_false in Hres, Hrole. cbn [orb]. unfold_page.
  assert (Hgoal : forall rq,
             In rq [UsersCreate (new_account service name username password (req_ip req))] ->
             [UsersCreate (new_account service name username password (req_ip req))] = [rq]
             /\ exists name' username' password' value' data,
                 CreateValid name username password value
                 = CreateValid name' username' password' value'
                 /\ (username' ∉ reserved_usernames)
                 /\ (username' ∉ roleBasedAddresses)
                 /\ rq = UsersCreate data
                 /\ data !! "name" = Some (VStr name')
                 /\ data !! "username" = Some (VStr username')
                 /\ data !! "password" = Some (VStr password')
                 /\ data !! "address" = Some (VStr (username' +:+ "@" +:+ domain service))
                 /\ data !! "recipients" = Some (VNum 500)
                 /\ data !! "forwards" = Some (VNum 500)
                 /\ data !! "quota" = Some (VNum 1073741824)
                 /\ data !! "ip" = Some (VStr (req_ip req))).
  { intros rq [<-|[]]. split; [reflexivity|].
    eexists _, _, _, _, _. split; [reflexivity|].
    split; [exact Hres|]. split; [exact Hrole|]. split; [reflexivity|].
    unfold new_account.
    repeat split; rewrite ?lookup_insert_ne by discriminate;
      rewrite ?lookup_insert_eq, ?lookup_singleton_eq; reflexivity. }
  destruct (page_api pg _) as [[message [fields|]]|data];
    unfold_page; solve_page; exact Hgoal.
Qed.

(** X23. With registration switched on, every [POST /create] adds exactly
    one flash message.  A ['success'] message comes with the redirect to the
    login page after the API created the account; otherwise the message is
    a ['danger'] one and the form is rendered again. *)
Theorem create_one_flash
        (service : ServiceConfig)
        (joi_details : gmap string JsVal -> list (string * string))
        (roleBasedAddresses : list string)
        (joi_create : gmap string JsVal -> CreateResult)
        (req : Request) (pg : Page) :
  allowJoin service = true ->
  let (resp, pg') :=
    post_create service joi_details roleBasedAddresses joi_create req pg in
  exists kind message,
    flashes_since pg pg' = [(kind, message)]
    /\ ((kind = "success" /\ resp = PRedirect "/account/login/"
         /\ exists rq data, calls_since pg pg' = [rq] /\ page_api pg rq = AccOk data)
        \/ (kind = "danger" /\ exists locals, resp = PRender "account/create" locals)).
Proof.
  intros Hon. unfold post_create. rewrite Hon. cbn [negb].
  destruct (joi_create _) as [value|name username password value];
    [unfold_page; solve_page; eexists _, _; split; [reflexivity|];
     right; split; [reflexivity | eexists; reflexivity]|].
  destruct (_ || _);
    [unfold_page; solve_page; eexists _, _; split; [reflexivity|];
     right; split; [reflexivity | eexists; reflexivity]|].
  unfold_page.
  destruct (page_api pg _) as [[message [fields|]]|data] eqn:Hapi;
    unfold_page; solve_page; eexists _, _; (split; [reflexivity|]).
  - right. split; [reflexivity | eexists; reflexivity].
  - right. split; [reflexivity | eexists; reflexivity].
  - left. split; [reflexivity|]. split; [reflexivity|].
    eexists _, _. split; [reflexivity | exact Hapi].
Qed.

Lemma enable_2fa_valid
      (convert_number : JsVal -> option JsVal)
      (convert_boolean : list JsVal -> list JsVal -> JsVal -> option bool)
      (body : gmap string JsVal) :
  is_Some (Joi.validate convert_number convert_boolean enable_2fa_schema
             (delete "_csrf" body))
  <-> (forall k, is_Some (body !! k) -> k = "_csrf" \/ k = "token")
      /\ (body !! "token" = None \/ six_digits (body !! "token") = true).
Proof.
  assert (Htok : delete "_csrf" body !! "token" = body !! "token")
    by (apply lookup_delete_ne; discriminate).
  assert (Hkeys : map_Forall (fun name (_ : JsVal) => name ∈ enable_2fa_schema.*1)
                    (delete "_csrf" body)
                  <-> forall k, is_Some (body !! k) -> k = "_csrf" \/ k = "token").
  { unfold enable_2fa_schema. cbn [fmap list_fmap fst]. split.
    - intros Hall k [v Hk]. destruct (decide (k = "_csrf")) as [|Hne]; [left; assumption|].
      right. specialize (Hall k v). rewrite lookup_delete_ne in Hall by congruence.
      specialize (Hall Hk). apply list_elem_of_singleton in Hall. exact Hall.
    - intros Hall k v Hk. destruct (decide (k = "_csrf")) as [->|Hne].
      + rewrite lookup_delete_eq in Hk. discriminate.
      + rewrite lookup_delete_ne in Hk by congruence.
        destruct (Hall k (ex_intro _ v Hk)) as [ | -> ]; [contradiction|].
        apply list_elem_of_singleton. reflexivity. }
  assert (Hcheck : forall v,
             is_Some (Joi.check convert_number convert_boolean
                        (Joi.key_kind (Joi.regex Joi.numbers (Joi.length 6 Joi.string_))) v)
             <-> six_digits (Some v) = true).
  { intros v. cbn [Joi.regex Joi.length Joi.string_ Joi.key_kind Joi.check six_digits].
    destruct v as [| | |s| |]; try (split; [intros [? [=]] | discriminate]).
    unfold Joi.numbers.
    destruct (Nat.eqb_spec (String.length s) 6) as [Hlen|];
      [|rewrite andb_false_r; split; [intros [? [=]] | discriminate]].
    assert (Hne : String.eqb s EmptyString = false) by (destruct s; [discriminate | reflexivity]).
    rewrite Hne. cbn [negb andb].
    destruct (Hex.all_chars Joi.is_digit s); split; eauto; try discriminate.
    intros [? [=]]. }
  unfold Joi.validate. destruct (bool_decide _) eqn:Hdec.
  - apply bool_decide_eq_true in Hdec. pose proof (proj1 Hkeys Hdec) as Hall. clear Hdec.
    rename Hall into Hdec.
    unfold enable_2fa_schema. cbn [foldr Joi.validate_key mbind option_bind].
    rewrite Htok. destruct (body !! "token") as [v|] eqn:Hv.
    + specialize (Hcheck v).
      destruct (Joi.check _ _ _ v) as [v'|]; cbn [mbind option_bind].
      * split; [intros _; split; [exact Hdec | right; apply Hcheck; eauto] | eauto].
      * split; [intros [? [=]]|]. intros [_ [[=]|Hsix]].
        apply Hcheck in Hsix. destruct Hsix as [? [=]].
    + cbn [Joi.key_required Joi.regex Joi.length Joi.string_ Joi.key_kind Joi.key_default].
      split; [intros _; split; [exact Hdec | left; reflexivity] | eauto].
  - apply bool_decide_eq_false in Hdec. split; [intros [? [=]]|].
    intros [Hall _]. destruct (Hdec (proj2 Hkeys Hall)).
Qed.


(** ** The properties on examples *)

(** Two runs that differ in the provider only mint the same token. *)
Lemma generate2faRemeberToken_inj_witness :
  fst (generate2faRemeberToken sample_cfg sample_user sample_env)
  = fst (generate2faRemeberToken sample_cfg sample_user sample_login_env)
  /\ env_now sample_env = env_now sample_login_env
  /\ nonce_of sample_env = nonce_of sample_login_env.
Proof.
  assert (H : fst (generate2faRemeberToken sample_cfg sample_user sample_env)
              = fst (generate2faRemeberToken sample_cfg sample_user sample_login_env))
    by (vm_compute; reflexivity).
  split; [exact H|].
  destruct (generate2faRemeberToken_inj
              sample_cfg sample_cfg sample_user sample_user sample_env sample_login_env H)
    as (Hnow & Hnonce & _).
  split; assumption.
Defined.

(** A confirmed security key clears the flag. *)
Lemma check_u2f_clears_on_success_only_witness :
  let (resp, env') :=
    check_u2f sample_cfg sample_convert_number sample_convert_boolean sample_joi_message
              (sample_request (u2f_body "a2V5" false)) sample_login_env in
  is_error resp = false /\ require2fa (env_session env') = false.
Proof.
  pose proof (check_u2f_clears_on_success_only
                sample_cfg sample_convert_number sample_convert_boolean sample_joi_message
                (sample_request (u2f_body "a2V5" false)) sample_login_env) as H.
  assert (Hin : In (EvApi (check_call PostCheckU2f
                             (sample_request (u2f_body "a2V5" false)) sample_user))
                   (events_since sample_login_env
                      (check_u2f sample_cfg sample_convert_number sample_convert_boolean
                                 sample_joi_message
                                 (sample_request (u2f_body "a2V5" false))
                                 sample_login_env).2))
    by (vm_compute; left; reflexivity).
  destruct (check_u2f _ _ _ _ _ _) as [resp env'].
  destruct H as (_ & Hok & _).
  apply (Hok _ Hin). vm_compute. reflexivity.
Defined.

(** The right code changes the session, on a route that may. *)
Lemma session_only_cleared_witness :
  let (resp, env') :=
    handler sample_cfg sample_convert_number sample_convert_boolean sample_joi_message
            PostCheckTotp (sample_request (totp_body "123456")) sample_login_env in
  writes_session PostCheckTotp = true
  /\ is_error resp = false
  /\ require2fa (env_session env') = false.
Proof.
  pose proof (session_only_cleared
                sample_cfg sample_convert_number sample_convert_boolean sample_joi_message
                PostCheckTotp (sample_request (totp_body "123456")) sample_login_env) as H.
  assert (Hchange : env_session
                      (handler sample_cfg sample_convert_number sample_convert_boolean
                               sample_joi_message PostCheckTotp
                               (sample_request (totp_body "123456")) sample_login_env).2
                    <> env_session sample_login_env)
    by (vm_compute; discriminate).
  destruct (handler _ _ _ _ _ _ _) as [resp env'].
  destruct H as (_ & _ & Hchanged). exact (Hchanged Hchange).
Defined.

Lemma no_user_no_effect_witness :
  req_user (sample_anonymous_request (totp_body "123456")) = None
  /\ let (resp, env') :=
       handler sample_cfg sample_convert_number sample_convert_boolean sample_joi_message
               PostCheckTotp (sample_anonymous_request (totp_body "123456"))
               sample_login_env in
     env' = sample_login_env /\ (is_error resp = true \/ PostCheckTotp = PostEnableU2f).
Proof.
  split; [reflexivity|].
  apply (no_user_no_effect
           sample_cfg sample_convert_number sample_convert_boolean sample_joi_message
           PostCheckTotp (sample_anonymous_request (totp_body "123456")) sample_login_env).
  reflexivity.
Defined.



(** The right code with [remember2fa] on. *)
Lemma check_succeeds_witness :
  let (resp, env') :=
    handler sample_cfg sample_convert_number sample_convert_boolean sample_joi_message
            PostCheckTotp (sample_request (totp_body "123456")) sample_login_env in
  is_error resp = false
  /\ events_since sample_login_env env'
     = [EvApi (CheckTotp sample_user (Some (VStr "123456")) "192.0.2.7");
        EvMint sample_user].
Proof.
  pose proof (check_succeeds
                sample_cfg sample_convert_number sample_convert_boolean sample_joi_message
                PostCheckTotp (sample_request (totp_body "123456")) sample_login_env
                (<[ "remember2fa" := VBool true ]> {[ "token" := VStr "123456" ]})
                sample_user eq_refl ltac:(discriminate)
                ltac:(vm_compute; reflexivity) eq_refl
                ltac:(vm_compute; reflexivity)) as H.
  destruct (handler _ _ _ _ _ _ _) as [resp env'].
  destruct H as (Hresp & _ & Hevents). split; [exact Hresp|].
  rewrite Hevents. vm_compute. reflexivity.
Defined.

Lemma passwordFormatted_groups_witness :
  no_white_space "slrfwaavyzwfirxj" = true
  /\ passwordFormatted "slrfwaavyzwfirxj" = "slrf waav yzwf irxj".
Proof.
  split; [reflexivity|].
  rewrite (passwordFormatted_groups "slrfwaavyzwfirxj" eq_refl). reflexivity.
Defined.

Lemma passwordFormatted_round_trip_witness :
  no_white_space "slrfwaavyzwfir" = true
  /\ without_spaces (passwordFormatted "slrfwaavyzwfir") = "slrfwaavyzwfir".
Proof.
  split; [reflexivity|].
  apply (passwordFormatted_round_trip "slrfwaavyzwfir"). reflexivity.
Defined.

(** The password the API listed last is shown first, as number 1. *)
Lemma listed_asps_newest_first_witness :
  (0 < length sample_asps)%nat
  /\ exists shown,
      listed_asps sample_asps !! 0%nat = Some shown
      /\ asp_fields shown !! "description" = Some (VStr "tablet")
      /\ asp_fields shown !! "index" = Some (VNum 1).
Proof.
  assert (Hpos : (0 < length sample_asps)%nat) by (vm_compute; lia).
  split; [exact Hpos|].
  destruct (proj2 (listed_asps_newest_first sample_asps 0) Hpos)
    as (entry & shown & Hentry & Hshown & _ & Hindex & _ & Hother).
  exists shown. split; [exact Hshown|]. split; [|exact Hindex].
  rewrite Hother by discriminate.
  vm_compute in Hentry. injection Hentry as <-. reflexivity.
Defined.

Lemma show_entry_frame_witness :
  show_entry sample_entry !! "ip" = sample_entry !! "ip".
Proof.
  apply (proj1 (show_entry_frame sample_entry) "ip").
  apply (bool_decide_unpack
           (("ip" : string) ∉ ["asp"; "protocol"; "action"; "result"; "label"])).
  vm_compute. exact I.
Defined.

Lemma show_entry_idempotent_witness :
  truthy_opt (sample_entry !! "asp") = false
  /\ show_entry (show_entry sample_entry) = show_entry sample_entry.
Proof.
  split; [vm_compute; reflexivity|].
  apply (show_entry_idempotent sample_entry). vm_compute. reflexivity.
Defined.


(** An id that is too short. *)
Lemma asp_delete_id_checked_witness :
  validate_asp_id (req_body (sample_request {[ "id" := VStr "5a1d2816" ]}) !! "id") = None
  /\ let (resp, pg') :=
       asp_delete sample_joi_details (sample_request {[ "id" := VStr "5a1d2816" ]})
                  sample_page in
     calls_since sample_page pg' = [] /\ resp = PRedirect "/account/security".
Proof.
  assert (Hid : validate_asp_id
                  (req_body (sample_request {[ "id" := VStr "5a1d2816" ]}) !! "id") = None)
    by (vm_compute; reflexivity).
  split; [exact Hid|].
  pose proof (asp_delete_id_checked
                sample_joi_details (sample_request {[ "id" := VStr "5a1d2816" ]})
                sample_page) as H.
  destruct (asp_delete _ _ _) as [resp pg'].
  exact (proj2 H Hid).
Defined.

(** The page of a new application password. *)
Lemma asp_create_outcomes_witness :
  let (resp, pg') :=
    asp_create sample_joi_details sample_joi_asp_create
               (sample_request {[ "description" := VStr " phone " ]}) sample_page in
  exists locals password,
    resp = PRender "account/asp" locals
    /\ locals !! "password" = Some (VStr password)
    /\ locals !! "passwordFormatted" = Some (VStr (passwordFormatted password)).
Proof.
  pose proof (asp_create_outcomes
                sample_joi_details sample_joi_asp_create
                (sample_request {[ "description" := VStr " phone " ]}) sample_page) as H.
  assert (Hpage : match (asp_create sample_joi_details sample_joi_asp_create
                           (sample_request {[ "description" := VStr " phone " ]})
                           sample_page).1 with
                  | PRender _ _ => True
                  | _ => False
                  end)
    by (vm_compute; exact I).
  destruct (asp_create _ _ _ _) as [resp pg'].
  destruct H as (_ & Hrender & [-> | [-> | [locals ->]]]); try destruct Hpage.
  destruct (Hrender _ _ eq_refl)
    as (_ & rq & response & password & _ & _ & _ & Hlocal & Hshown).
  exists locals, password. split; [reflexivity|]. split; assumption.
Defined.

Lemma create_disabled_witness :
  allowJoin sample_service_closed = false
  /\ get_create sample_service_closed (sample_anonymous_request (create_body "alice"))
                sample_page
     = (PNext registration_disabled (Some 404), sample_page)
  /\ post_create sample_service_closed sample_joi_details sample_roleBasedAddresses
                 sample_joi_create (sample_anonymous_request (create_body "alice"))
                 sample_page
     = (PNext registration_disabled (Some 404), sample_page).
Proof.
  split; [reflexivity|].
  apply (create_disabled
           sample_service_closed sample_joi_details sample_roleBasedAddresses
           sample_joi_create).
  reflexivity.
Defined.

(** The account asked for on behalf of [alice]. *)
Lemma create_never_reserved_witness :
  let (resp, pg') :=
    post_create sample_service sample_joi_details sample_roleBasedAddresses
                sample_joi_create (sample_anonymous_request (create_body "alice"))
                sample_page in
  calls_since sample_page pg'
  = [UsersCreate (new_account sample_service "Alice" "alice" "correct horse" "192.0.2.7")].
Proof.
  pose proof (create_never_reserved
                sample_service sample_joi_details sample_roleBasedAddresses
                sample_joi_create (sample_anonymous_request (create_body "alice"))
                sample_page) as H.
  assert (Hin : In (UsersCreate (new_account sample_service "Alice" "alice"
                                             "correct horse" "192.0.2.7"))
                   (calls_since sample_page
                      (post_create sample_service sample_joi_details
                                   sample_roleBasedAddresses sample_joi_create
                                   (sample_anonymous_request (create_body "alice"))
                                   sample_page).2))
    by (vm_compute; left; reflexivity).
  destruct (post_create _ _ _ _ _ _) as [resp pg'].
  exact (proj1 (H _ Hin)).
Defined.

Lemma create_one_flash_witness :
  allowJoin sample_service = true
  /\ let (resp, pg') :=
       post_create sample_service sample_joi_details sample_roleBasedAddresses
                   sample_joi_create (sample_anonymous_request (create_body "root"))
                   sample_page in
     exists kind message,
       flashes_since sample_page pg' = [(kind, message)]
       /\ ((kind = "success" /\ resp = PRedirect "/account/login/"
            /\ exists rq data,
                calls_since sample_page pg' = [rq] /\ page_api sample_page rq = AccOk data)
           \/ (kind = "danger" /\ exists locals, resp = PRender "account/create" locals)).
Proof.
  split; [reflexivity|].
  apply (create_one_flash
           sample_service sample_joi_details sample_roleBasedAddresses sample_joi_create
           (sample_anonymous_request (create_body "root")) sample_page).
  reflexivity.
Defined.

